(** * Leave-management ledger (src/mcp/leave-management-mcp-server/main.py)

    A shallow embedding of the in-memory leave ledger and of its six tools
    ([check_balance], [apply_leave], [cancel_leave], [leave_history],
    [admin_adjust_balance], [list_employees]), together with the part of
    Python's [datetime.strptime] / [strftime] that the format "%Y-%m-%d"
    exercises.

    Conventions.
    - Python [int] is [Z]; Python [str] is [string], read as a sequence of
      code points below 256 (among those, the regular-expression class [\d]
      matches exactly the characters 0..9).
    - The module-level dict [employee_leaves] is an association list in
      insertion order (the order [list_employees] iterates in); the tools
      only ever mutate the inner record of an existing key.
    - A tool is a computation in a state-and-exception monad over the
      ledger, so that "returns a response" and "raises" are different
      outcomes.
    - The text of the "message" field is represented by the data that is
      interpolated into it; logging is not modelled.
    - [strftime] prints a year below 1000 with or without leading zeros,
      depending on the C library; the tools take that choice as the
      parameter [zero_pad], and the properties hold for both. *)

From Stdlib Require Import ZArith List Bool Ascii String Lia.
Import ListNotations.
Open Scope string_scope.
Open Scope Z_scope.

(* ================================================================= *)
(** ** Characters and a small ordered-alternation matcher *)

Definition ord (c : ascii) : Z := Z.of_N (N_of_ascii c).

Definition CharClass := ascii -> bool.

(** [[lo-hi]] of a regular expression. *)
Definition between (lo hi : ascii) : CharClass :=
  fun c => (ord lo <=? ord c) && (ord c <=? ord hi).

(** A literal character. *)
Definition lit (a : ascii) : CharClass := fun c => Ascii.eqb a c.

(** [\d], restricted to code points below 256. *)
Definition re_digit : CharClass := between "0" "9".

(** Match a fixed sequence of character classes at the head of [s];
    the result is the matched text and the unconsumed remainder. *)
Fixpoint match_classes (cs : list CharClass) (s : string)
  : option (string * string) :=
  match cs with
  | [] => Some ("", s)
  | p :: cs' =>
      match s with
      | EmptyString => None
      | String c s' =>
          if p c then
            match match_classes cs' s' with
            | Some (m, r) => Some (String c m, r)
            | None => None
            end
          else None
      end
  end.

(** [a1|a2|...]: every alternative that matches, in the order in which a
    backtracking matcher tries them. *)
Fixpoint match_alternatives (alts : list (list CharClass)) (s : string)
  : list (string * string) :=
  match alts with
  | [] => []
  | a :: alts' =>
      match match_classes a s with
      | Some mr => mr :: match_alternatives alts' s
      | None => match_alternatives alts' s
      end
  end.

(** The first candidate on which the continuation succeeds. *)
Fixpoint first_success {A B : Type} (k : A -> option B) (l : list A)
  : option B :=
  match l with
  | [] => None
  | x :: l' =>
      match k x with
      | Some b => Some b
      | None => first_success k l'
      end
  end.

(** The directive patterns of [_strptime.TimeRE]:
    ['Y': \d\d\d\d], ['m': 1[0-2]|0[1-9]|[1-9]],
    ['d': 3[0-1]|[1-2]\d|0[1-9]|[1-9]| [1-9]]. *)
Definition re_Y : list CharClass := [re_digit; re_digit; re_digit; re_digit].

Definition re_m : list (list CharClass) :=
  [ [lit "1"; between "0" "2"];
    [lit "0"; between "1" "9"];
    [between "1" "9"] ].

Definition re_d : list (list CharClass) :=
  [ [lit "3"; between "0" "1"];
    [between "1" "2"; re_digit];
    [lit "0"; between "1" "9"];
    [between "1" "9"];
    [lit " "; between "1" "9"] ].

(** The groups [m] and [d] and the unconsumed text, for the part of the
    pattern that follows the first hyphen. *)
Definition match_month_day (s : string) : option (string * string * string) :=
  first_success
    (fun '(m, s3) =>
       match match_classes [lit "-"] s3 with
       | None => None
       | Some (_, s4) =>
           match match_alternatives re_d s4 with
           | [] => None
           | (d, s5) :: _ => Some (m, d, s5)
           end
       end)
    (match_alternatives re_m s).

(** [format_regex.match(data_string)] for the format "%Y-%m-%d": the three
    groups and the text after the end of the match. *)
Definition format_regex_match (s : string)
  : option (string * string * string * string) :=
  match match_classes re_Y s with
  | None => None
  | Some (Y, s1) =>
      match match_classes [lit "-"] s1 with
      | None => None
      | Some (_, s2) =>
          match match_month_day s2 with
          | None => None
          | Some (m, d, rest) => Some (Y, m, d, rest)
          end
      end
  end.

(** [int(text)] on the texts the groups can hold: leading blanks are
    skipped, every other character has to be a decimal digit. *)
Fixpoint int_digits (acc : Z) (s : string) : option Z :=
  match s with
  | EmptyString => Some acc
  | String c s' =>
      if re_digit c then int_digits (10 * acc + (ord c - 48)) s' else None
  end.

Fixpoint lstrip (s : string) : string :=
  match s with
  | String c s' => if Ascii.eqb c " " then lstrip s' else s
  | EmptyString => s
  end.

Definition py_int (s : string) : option Z :=
  match lstrip s with
  | EmptyString => None
  | t => int_digits 0 t
  end.

(* ================================================================= *)
(** ** Calendar dates *)

(** A [datetime] whose time of day is midnight. *)
Record datetime := mk_datetime { year : Z; month : Z; day : Z }.

Definition is_leap (y : Z) : bool :=
  (y mod 4 =? 0) && (negb (y mod 100 =? 0) || (y mod 400 =? 0)).

Definition days_in_month (y m : Z) : Z :=
  if m =? 2 then (if is_leap y then 29 else 28)
  else if (m =? 4) || (m =? 6) || (m =? 9) || (m =? 11) then 30
  else 31.

(** The range check of the [datetime] constructor. *)
Definition valid_date (y m d : Z) : bool :=
  (1 <=? y) && (y <=? 9999) && (1 <=? m) && (m <=? 12) &&
  (1 <=? d) && (d <=? days_in_month y m).

(** Python exceptions that the modelled code can meet. *)
Inductive PyExn :=
| ValueError
| KeyError (key : string).

Inductive Outcome (A : Type) :=
| Returned (a : A)
| Raised (e : PyExn).
Arguments Returned {A} a.
Arguments Raised {A} e.

(** [datetime(y, m, d)]. *)
Definition new_datetime (y m d : Z) : Outcome datetime :=
  if valid_date y m d then Returned (mk_datetime y m d) else Raised ValueError.

(** [datetime.strptime(s, "%Y-%m-%d")]: no match, unconverted data and an
    out-of-range field all raise [ValueError]. *)
Definition strptime (s : string) : Outcome datetime :=
  match format_regex_match s with
  | None => Raised ValueError
  | Some (Y, m, d, rest) =>
      match rest with
      | String _ _ => Raised ValueError
      | EmptyString =>
          match py_int Y, py_int m, py_int d with
          | Some y, Some mo, Some dy => new_datetime y mo dy
          | _, _, _ => Raised ValueError
          end
      end
  end.

(** [base.replace(day=k)]. *)
Definition replace_day (base : datetime) (k : Z) : Outcome datetime :=
  new_datetime (year base) (month base) k.

(** Rendering of numbers. *)
Definition digit_char (k : Z) : ascii := ascii_of_N (Z.to_N (48 + k)).

Definition two_digits (n : Z) : string :=
  String (digit_char (n / 10)) (String (digit_char (n mod 10)) "").

Definition four_digits (n : Z) : string :=
  String (digit_char (n / 1000))
    (String (digit_char (n / 100 mod 10))
       (String (digit_char (n / 10 mod 10))
          (String (digit_char (n mod 10)) ""))).

Fixpoint strip_zeros (s : string) : string :=
  match s with
  | String c s' =>
      match s' with
      | EmptyString => s
      | String _ _ => if Ascii.eqb c "0" then strip_zeros s' else s
      end
  | EmptyString => s
  end.

(** [%Y] of [strftime]. The C library decides whether a year below 1000 is
    padded to four digits ("0999") or not ("999", glibc); [zero_pad] is that
    choice. *)
Definition format_Y (zero_pad : bool) (y : Z) : string :=
  if zero_pad then four_digits y else strip_zeros (four_digits y).

(** [dt.strftime("%Y-%m-%d")]. *)
Definition strftime (zero_pad : bool) (dt : datetime) : string :=
  format_Y zero_pad (year dt) ++ "-" ++ two_digits (month dt)
    ++ "-" ++ two_digits (day dt).

(** Calendar-correct successor of a date (with month and year rollover);
    this follows the calendar, not the source. *)
Definition next_day (dt : datetime) : datetime :=
  if day dt <? days_in_month (year dt) (month dt)
  then mk_datetime (year dt) (month dt) (day dt + 1)
  else if month dt <? 12
       then mk_datetime (year dt) (month dt + 1) 1
       else mk_datetime (year dt + 1) 1 1.

(** [n] consecutive calendar dates starting at [dt]. *)
Fixpoint consecutive_dates (dt : datetime) (n : nat) : list datetime :=
  match n with
  | O => []
  | S n' => dt :: consecutive_dates (next_day dt) n'
  end.

(* ================================================================= *)
(** ** The ledger *)

(** One inner dict [{"balance": ..., "history": [...]}]. *)
Record EmployeeRecord := mk_record { balance : Z; history : list string }.

(** [employee_leaves]: keys in insertion order. *)
Definition Ledger := list (string * EmployeeRecord).

Definition employee_leaves : Ledger :=
  [ ("E001", mk_record 18 ["2024-12-25"; "2025-01-01"]);
    ("E002", mk_record 20 []);
    ("Prakash", mk_record 20 []) ].

Fixpoint lookup (k : string) (L : Ledger) : option EmployeeRecord :=
  match L with
  | [] => None
  | (k', r) :: L' => if String.eqb k k' then Some r else lookup k L'
  end.

(** Overwrite the record stored under an existing key, in place. *)
Fixpoint update (k : string) (r : EmployeeRecord) (L : Ledger) : Ledger :=
  match L with
  | [] => []
  | (k', r') :: L' =>
      if String.eqb k k' then (k', r) :: L' else (k', r') :: update k r L'
  end.

Definition keys (L : Ledger) : list string := map fst L.

(** ** State and exceptions *)

Definition Store (A : Type) := Ledger -> Ledger * Outcome A.

Definition ret {A : Type} (a : A) : Store A := fun L => (L, Returned a).

Definition raise {A : Type} (e : PyExn) : Store A := fun L => (L, Raised e).

Definition bind {A B : Type} (c : Store A) (k : A -> Store B) : Store B :=
  fun L =>
    match c L with
    | (L', Returned a) => k a L'
    | (L', Raised e) => (L', Raised e)
    end.

Notation "x <- c ;; k" := (bind c (fun x => k))
  (at level 61, c at next level, right associativity).
Notation "c ;;; k" := (bind c (fun _ => k))
  (at level 61, right associativity).

Definition lift {A : Type} (o : Outcome A) : Store A := fun L => (L, o).

(** [employee_leaves[k]]: [KeyError] on an absent key. *)
Definition get_record (k : string) : Store EmployeeRecord :=
  fun L =>
    match lookup k L with
    | Some r => (L, Returned r)
    | None => (L, Raised (KeyError k))
    end.

(** [employee_leaves[k]["balance"]] and [employee_leaves[k]["history"]]. *)
Definition get_balance (k : string) : Store Z :=
  r <- get_record k ;; ret (balance r).

Definition get_history (k : string) : Store (list string) :=
  r <- get_record k ;; ret (history r).

(** [employee_leaves[k]["balance"] = v]. *)
Definition set_balance (k : string) (v : Z) : Store unit :=
  r <- get_record k ;;
  fun L => (update k (mk_record v (history r)) L, Returned tt).

(** In-place change of the list held in [employee_leaves[k]["history"]]. *)
Definition set_history (k : string) (h : list string) : Store unit :=
  r <- get_record k ;;
  fun L => (update k (mk_record (balance r) h) L, Returned tt).

(** ** Python list and range helpers *)

(** [x in l]. *)
Definition contains (x : string) (l : list string) : bool :=
  existsb (String.eqb x) l.

Fixpoint remove_first (x : string) (l : list string) : list string :=
  match l with
  | [] => []
  | y :: l' => if String.eqb x y then l' else y :: remove_first x l'
  end.

(** [l.remove(x)]: the first occurrence goes; [ValueError] if there is none. *)
Definition list_remove (x : string) (l : list string) : Outcome (list string) :=
  if contains x l then Returned (remove_first x l) else Raised ValueError.

(** [l[:limit]]: a negative bound counts from the end. *)
Definition slice_to {A : Type} (l : list A) (limit : Z) : list A :=
  if limit <? 0
  then firstn (Z.to_nat (Z.of_nat (List.length l) + limit)) l
  else firstn (Z.to_nat limit) l.

(** [range(n)]. *)
Definition range (n : Z) : list Z := map Z.of_nat (seq 0 (Z.to_nat n)).

(** A [for] loop that appends [f x] to a list; the first exception leaves
    the loop. *)
Fixpoint for_each {A B : Type} (f : A -> Outcome B) (l : list A)
  : Outcome (list B) :=
  match l with
  | [] => Returned []
  | x :: l' =>
      match f x with
      | Raised e => Raised e
      | Returned y =>
          match for_each f l' with
          | Raised e => Raised e
          | Returned ys => Returned (y :: ys)
          end
      end
  end.

Definition count (x : string) (l : list string) : nat :=
  List.length (filter (String.eqb x) l).

(** ** Responses *)

(** The failing returns, named after the spec's taxonomy. Each is the dict
    [{"ok": False, "message": ...}]; the arguments are the values
    interpolated into the message. *)
Inductive ErrorKind :=
| NotFound (employee_id : string)            (* "Employee ... not found." *)
| InvalidDate                                (* "Invalid date format. ..." *)
| InvalidQuantity                            (* "Number of days must be >= 1." *)
| InsufficientBalance (requested available : Z)
                                             (* "Not enough leave balance. ..." *)
| NoSuchLeaveEntry (date employee_id : string).
                                             (* "No leave found on ... for ..." *)

(** The dict a tool returns. [Failure] has ["ok": False], all the others
    ["ok": True]. Arguments are the fields of the dict, and after them the
    values that only the message carries. *)
Inductive Response :=
| Failure (e : ErrorKind)
| BalanceOk (employee_id : string) (bal : Z) (history_count : Z)
| ApplyOk (employee_id : string) (applied_dates : list string) (days : Z)
    (new_balance : Z) (reason : option string)
| CancelOk (employee_id : string) (cancelled_date : string) (new_balance : Z)
| HistoryOk (employee_id : string) (hist : list string) (limit : Z)
| AdjustOk (employee_id : string) (new_balance : Z)
    (admin_id : string) (delta : Z) (note : option string)
| EmployeesOk (employees : list (string * Z * Z)).

(** The ["ok"] field. *)
Definition ok (r : Response) : bool :=
  match r with
  | Failure _ => false
  | _ => true
  end.

Definition len {A : Type} (l : list A) : Z := Z.of_nat (List.length l).

(** The exact format the spec asks for: four digits, a hyphen, two digits,
    a hyphen, two digits, denoting a valid calendar date. This follows the
    spec's words, not the source. *)
Definition exact_classes : list CharClass :=
  [re_digit; re_digit; re_digit; re_digit; lit "-";
   re_digit; re_digit; lit "-"; re_digit; re_digit].

Definition exact_format (s : string) : bool :=
  match match_classes exact_classes s with
  | Some (t, EmptyString) =>
      match int_digits 0 (substring 0 4 t),
            int_digits 0 (substring 5 2 t),
            int_digits 0 (substring 8 2 t) with
      | Some y, Some m, Some d => valid_date y m d
      | _, _, _ => false
      end
  | _ => false
  end.

(** The texts the month and day directives accept. *)
Definition month_texts : list (string * Z) :=
  map (fun m => (two_digits m, m)) [1;2;3;4;5;6;7;8;9;10;11;12] ++
  map (fun m => (String (digit_char m) "", m)) [1;2;3;4;5;6;7;8;9].

Definition day_texts : list (string * Z) :=
  map (fun d => (two_digits d, d))
    [1;2;3;4;5;6;7;8;9;10;11;12;13;14;15;16;17;18;19;20;
     21;22;23;24;25;26;27;28;29;30;31] ++
  map (fun d => (String (digit_char d) "", d)) [1;2;3;4;5;6;7;8;9] ++
  map (fun d => (String " " (String (digit_char d) ""), d)) [1;2;3;4;5;6;7;8;9].


(* ================================================================= *)
(** ** The tools *)

Section Tools.

(** Whether the platform's [strftime] pads [%Y] to four digits. *)
Variable zero_pad : bool.

(** [_employee_exists]. *)
Definition _employee_exists (emp_id : string) : Store bool :=
  fun L =>
    (L, Returned (match lookup emp_id L with Some _ => true | None => false end)).

(** [_normalize_date]: [Some] normalized text, or [None]. *)
Definition _normalize_date (date_str : string) : option string :=
  match strptime date_str with
  | Returned dt => Some (strftime zero_pad dt)
  | Raised _ => None
  end.

(** [check_balance]. *)
Definition check_balance (employee_id : string) : Store Response :=
  known <- _employee_exists employee_id ;;
  if negb known then ret (Failure (NotFound employee_id))
  else
    bal <- get_balance employee_id ;;
    hist <- get_history employee_id ;;
    ret (BalanceOk employee_id bal (len hist)).

(** The body of the [try] block of [apply_leave]: one text per day, the
    day field of [base] incremented by the loop index. *)
Definition expand_dates (norm_date : string) (days : Z)
  : Outcome (list string) :=
  match strptime norm_date with
  | Raised e => Raised e
  | Returned base =>
      for_each
        (fun i =>
           if i =? 0 then Returned (strftime zero_pad base)
           else
             match replace_day base (day base + i) with
             | Returned dt => Returned (strftime zero_pad dt)
             | Raised e => Raised e
             end)
        (range days)
  end.

(** What [applied_dates] holds after the [try] statement of [apply_leave]:
    the expansion, or the normalized date alone when the expansion raised. *)
Definition applied (norm_date : string) (days : Z) : list string :=
  match expand_dates norm_date days with
  | Returned ds => ds
  | Raised _ => [norm_date]
  end.

(** [apply_leave]. *)
Definition apply_leave (employee_id date : string) (days : Z)
    (reason : option string) : Store Response :=
  match _normalize_date date with
  | None => ret (Failure InvalidDate)
  | Some norm_date =>
      if days <=? 0 then ret (Failure InvalidQuantity)
      else
        known <- _employee_exists employee_id ;;
        if negb known then ret (Failure (NotFound employee_id))
        else
          bal <- get_balance employee_id ;;
          if days >? bal then ret (Failure (InsufficientBalance days bal))
          else
            let applied_dates :=
              match expand_dates norm_date days with
              | Returned ds => ds
              | Raised _ => [norm_date]
              end in
            b <- get_balance employee_id ;;
            set_balance employee_id (b - days) ;;;
            h <- get_history employee_id ;;
            set_history employee_id (h ++ applied_dates) ;;;
            new_balance <- get_balance employee_id ;;
            ret (ApplyOk employee_id applied_dates days new_balance reason)
  end.

(** [cancel_leave]. *)
Definition cancel_leave (employee_id date : string) : Store Response :=
  match _normalize_date date with
  | None => ret (Failure InvalidDate)
  | Some norm_date =>
      known <- _employee_exists employee_id ;;
      if negb known then ret (Failure (NotFound employee_id))
      else
        hist <- get_history employee_id ;;
        if negb (contains norm_date hist)
        then ret (Failure (NoSuchLeaveEntry norm_date employee_id))
        else
          hist' <- lift (list_remove norm_date hist) ;;
          set_history employee_id hist' ;;;
          b <- get_balance employee_id ;;
          set_balance employee_id (b + 1) ;;;
          new_balance <- get_balance employee_id ;;
          ret (CancelOk employee_id norm_date new_balance)
  end.

(** [leave_history]. *)
Definition leave_history (employee_id : string) (limit : Z) : Store Response :=
  known <- _employee_exists employee_id ;;
  if negb known then ret (Failure (NotFound employee_id))
  else
    h <- get_history employee_id ;;
    let hist := rev h in
    let truncated := slice_to hist limit in
    ret (HistoryOk employee_id truncated limit).

(** [admin_adjust_balance]. *)
Definition admin_adjust_balance (admin_id employee_id : string) (delta : Z)
    (note : option string) : Store Response :=
  known <- _employee_exists employee_id ;;
  if negb known then ret (Failure (NotFound employee_id))
  else
    b <- get_balance employee_id ;;
    set_balance employee_id (b + delta) ;;;
    b' <- get_balance employee_id ;;
    (if b' <? 0 then set_balance employee_id 0 else ret tt) ;;;
    new_balance <- get_balance employee_id ;;
    ret (AdjustOk employee_id new_balance admin_id delta note).

(** [list_employees]. *)
Definition list_employees : Store Response :=
  fun L =>
    (L, Returned
          (EmployeesOk
             (map (fun kv => (fst kv, balance (snd kv), len (history (snd kv))))
                L))).

(** Default arguments of the tools. *)
Definition default_days : Z := 1.
Definition default_limit : Z := 20.

(** ** Calls and sequences of calls *)

Inductive Op :=
| CheckBalance (employee_id : string)
| ApplyLeave (employee_id date : string) (days : Z) (reason : option string)
| CancelLeave (employee_id date : string)
| LeaveHistory (employee_id : string) (limit : Z)
| AdminAdjustBalance (admin_id employee_id : string) (delta : Z)
    (note : option string)
| ListEmployees.

Definition call (op : Op) : Store Response :=
  match op with
  | CheckBalance e => check_balance e
  | ApplyLeave e d n r => apply_leave e d n r
  | CancelLeave e d => cancel_leave e d
  | LeaveHistory e l => leave_history e l
  | AdminAdjustBalance a e d n => admin_adjust_balance a e d n
  | ListEmployees => list_employees
  end.

(** The employee a call addresses, if any. *)
Definition addressed (op : Op) : option string :=
  match op with
  | CheckBalance e | ApplyLeave e _ _ _ | CancelLeave e _
  | LeaveHistory e _ | AdminAdjustBalance _ e _ _ => Some e
  | ListEmployees => None
  end.

Definition read_only (op : Op) : bool :=
  match op with
  | CheckBalance _ | LeaveHistory _ _ | ListEmployees => true
  | _ => false
  end.

(** The failure with which [apply_leave] and [cancel_leave] reject their
    arguments before they look the employee up, if they do. *)
Definition argument_failure (op : Op) : option ErrorKind :=
  match op with
  | ApplyLeave _ d n _ =>
      match _normalize_date d with
      | None => Some InvalidDate
      | Some _ => if n <=? 0 then Some InvalidQuantity else None
      end
  | CancelLeave _ d =>
      match _normalize_date d with
      | None => Some InvalidDate
      | Some _ => None
      end
  | _ => None
  end.

(** The ledger after a sequence of calls, one after the other. *)
Fixpoint run (ops : list Op) (L : Ledger) : Ledger :=
  match ops with
  | [] => L
  | op :: ops' => run ops' (fst (call op L))
  end.

Definition nonneg_balances (L : Ledger) : Prop :=
  Forall (fun kv => 0 <= balance (snd kv)) L.

(** The calls after which balance plus number of history entries is what
    it was: all but an administrative adjustment and an application of
    several days whose expansion raised. *)
Definition keeps_leave_days (op : Op) : bool :=
  match op with
  | AdminAdjustBalance _ _ _ _ => false
  | ApplyLeave _ d n _ =>
      match _normalize_date d with
      | None => true
      | Some nd =>
          match expand_dates nd n with
          | Returned _ => true
          | Raised _ => n <=? 1
          end
      end
  | _ => true
  end.

(** A text that [strftime] prints for some valid date. *)
Definition normalized_text (s : string) : Prop :=
  exists dt, valid_date (year dt) (month dt) (day dt) = true /\
             s = strftime zero_pad dt.

Definition normalized_histories (L : Ledger) : Prop :=
  Forall (fun kv => Forall normalized_text (history (snd kv))) L.

(** The identifiers of a directory listing. *)
Definition listed_ids (es : list (string * Z * Z)) : list string :=
  map (fun x => fst (fst x)) es.

End Tools.

Example strptime_ex1 : strptime "2025-3-1" = Returned (mk_datetime 2025 3 1).
Proof. reflexivity. Qed.
Example strptime_ex2 : strptime "2025-02-29" = Raised ValueError.
Proof. reflexivity. Qed.
Example strptime_ex3 : strptime "2025-01- 5" = Returned (mk_datetime 2025 1 5).
Proof. reflexivity. Qed.
Example strptime_ex4 : strptime "2025-01-011" = Raised ValueError.
Proof. reflexivity. Qed.
Example strftime_ex1 : strftime false (mk_datetime 999 1 1) = "999-01-01".
Proof. reflexivity. Qed.
Example strftime_ex2 : strftime true (mk_datetime 999 1 1) = "0999-01-01".
Proof. reflexivity. Qed.
Example apply_ex1 :
  apply_leave false "E001" "2025-03-01" 2 None employee_leaves =
  ([ ("E001", mk_record 16 ["2024-12-25"; "2025-01-01"; "2025-03-01"; "2025-03-02"]);
     ("E002", mk_record 20 []); ("Prakash", mk_record 20 []) ],
   Returned (ApplyOk "E001" ["2025-03-01"; "2025-03-02"] 2 16 None)).
Proof. reflexivity. Qed.
Example apply_ex2 :
  snd (apply_leave false "E001" "2025-01-31" 2 None employee_leaves) =
   Returned (ApplyOk "E001" ["2025-01-31"] 2 16 None).
Proof. reflexivity. Qed.
Example history_ex1 :
  snd (leave_history "E001" (-1) employee_leaves) =
   Returned (HistoryOk "E001" ["2025-01-01"] (-1)).
Proof. reflexivity. Qed.
Example cancel_ex1 :
  cancel_leave false "E001" "2025-03-01"
    (fst (apply_leave false "E001" "2025-03-01" 2 None employee_leaves)) =
  ([ ("E001", mk_record 17 ["2024-12-25"; "2025-01-01"; "2025-03-02"]);
     ("E002", mk_record 20 []); ("Prakash", mk_record 20 []) ],
   Returned (CancelOk "E001" "2025-03-01" 17)).
Proof. reflexivity. Qed.
Example adjust_ex1 :
  snd (admin_adjust_balance "admin" "E002" (-25) None employee_leaves) =
   Returned (AdjustOk "E002" 0 "admin" (-25) None).
Proof. reflexivity. Qed.
Example list_ex1 :
  snd (list_employees employee_leaves) =
   Returned (EmployeesOk [("E001", 18, 2); ("E002", 20, 0); ("Prakash", 20, 0)]).
Proof. reflexivity. Qed.
Example exact_ex1 : exact_format "2025-03-01" = true /\ exact_format "2025-3-1" = false /\ exact_format "2025-02-30" = false.
Proof. repeat split; reflexivity. Qed.

(* ================================================================= *)
(** * Properties *)

(** ** The association list *)

Lemma lookup_update_same k r r' L :
  lookup k L = Some r -> lookup k (update k r' L) = Some r'.
Proof.
  induction L as [|[k' r0] L IH]; simpl; [discriminate|].
  destruct (String.eqb k k') eqn:E; simpl; rewrite E; auto.
Qed.

Lemma lookup_update_other k j r L :
  j <> k -> lookup j (update k r L) = lookup j L.
Proof.
  intros Hjk. induction L as [|[k' r0] L IH]; simpl; [reflexivity|].
  destruct (String.eqb k k') eqn:E; simpl.
  - apply String.eqb_eq in E. subst k'.
    destruct (String.eqb j k) eqn:E'; [apply String.eqb_eq in E'; contradiction | reflexivity].
  - rewrite IH. reflexivity.
Qed.

Lemma keys_update k r L : keys (update k r L) = keys L.
Proof.
  induction L as [|[k' r0] L IH]; simpl; [reflexivity|].
  destruct (String.eqb k k'); simpl; [reflexivity | f_equal; exact IH].
Qed.

Lemma update_update k r1 r2 L : update k r2 (update k r1 L) = update k r2 L.
Proof.
  induction L as [|[k' r0] L IH]; simpl; [reflexivity|].
  destruct (String.eqb k k') eqn:E; simpl; rewrite E; [reflexivity | f_equal; exact IH].
Qed.

Lemma update_absent k r L : lookup k L = None -> update k r L = L.
Proof.
  induction L as [|[k' r0] L IH]; simpl; [reflexivity|].
  destruct (String.eqb k k'); [discriminate | intros H; f_equal; auto].
Qed.

Lemma lookup_In k r L : lookup k L = Some r -> In (k, r) L.
Proof.
  induction L as [|[k' r0] L IH]; simpl; [discriminate|].
  destruct (String.eqb k k') eqn:E.
  - apply String.eqb_eq in E. intros [= ->]. left. subst. reflexivity.
  - intros H. right. auto.
Qed.

Lemma Forall_update (P : string * EmployeeRecord -> Prop) k r L :
  Forall P L -> (forall k', P (k', r)) -> Forall P (update k r L).
Proof.
  intros HL HP. induction HL as [|[k' r0] L Hx HL IH]; simpl; [constructor|].
  destruct (String.eqb k k'); constructor; auto.
Qed.

(** ** Running a computation of the store *)

Lemma bind_returned {A B : Type} (c : Store A) (k : A -> Store B) L L' a :
  c L = (L', Returned a) -> bind c k L = k a L'.
Proof. intros H. unfold bind. rewrite H. reflexivity. Qed.

Lemma bind_raised {A B : Type} (c : Store A) (k : A -> Store B) L L' e :
  c L = (L', Raised e) -> bind c k L = (L', Raised e).
Proof. intros H. unfold bind. rewrite H. reflexivity. Qed.

Lemma employee_exists_known e r L :
  lookup e L = Some r -> _employee_exists e L = (L, Returned true).
Proof. intros H. unfold _employee_exists. rewrite H. reflexivity. Qed.

Lemma employee_exists_unknown e L :
  lookup e L = None -> _employee_exists e L = (L, Returned false).
Proof. intros H. unfold _employee_exists. rewrite H. reflexivity. Qed.

Lemma get_record_known e r L :
  lookup e L = Some r -> get_record e L = (L, Returned r).
Proof. intros H. unfold get_record. rewrite H. reflexivity. Qed.

Lemma get_record_unknown e L :
  lookup e L = None -> get_record e L = (L, Raised (KeyError e)).
Proof. intros H. unfold get_record. rewrite H. reflexivity. Qed.

Lemma get_balance_known e r L :
  lookup e L = Some r -> get_balance e L = (L, Returned (balance r)).
Proof.
  intros H. unfold get_balance.
  rewrite (bind_returned _ _ _ _ _ (get_record_known _ _ _ H)). reflexivity.
Qed.

Lemma get_history_known e r L :
  lookup e L = Some r -> get_history e L = (L, Returned (history r)).
Proof.
  intros H. unfold get_history.
  rewrite (bind_returned _ _ _ _ _ (get_record_known _ _ _ H)). reflexivity.
Qed.

Lemma set_balance_known e r v L :
  lookup e L = Some r ->
  set_balance e v L = (update e (mk_record v (history r)) L, Returned tt).
Proof.
  intros H. unfold set_balance.
  rewrite (bind_returned _ _ _ _ _ (get_record_known _ _ _ H)). reflexivity.
Qed.

Lemma set_history_known e r h L :
  lookup e L = Some r ->
  set_history e h L = (update e (mk_record (balance r) h) L, Returned tt).
Proof.
  intros H. unfold set_history.
  rewrite (bind_returned _ _ _ _ _ (get_record_known _ _ _ H)). reflexivity.
Qed.

Create HintDb store.
#[local] Hint Resolve employee_exists_known employee_exists_unknown
  get_balance_known get_history_known set_balance_known set_history_known
  lookup_update_same : store.

(** One statement of a tool's body, executed on a ledger in which the
    addressed employee is known. *)
Ltac store_step := erewrite bind_returned by eauto with store; cbn [negb].

(** ** The tools as plain functions of the ledger *)

Section ToolEquations.

Variable zero_pad : bool.

Lemma check_balance_eq e L :
  check_balance e L =
  match lookup e L with
  | None => (L, Returned (Failure (NotFound e)))
  | Some r => (L, Returned (BalanceOk e (balance r) (len (history r))))
  end.
Proof.
  unfold check_balance.
  destruct (lookup e L) as [r|] eqn:E; repeat store_step; reflexivity.
Qed.

Lemma leave_history_eq e limit L :
  leave_history e limit L =
  match lookup e L with
  | None => (L, Returned (Failure (NotFound e)))
  | Some r => (L, Returned (HistoryOk e (slice_to (rev (history r)) limit) limit))
  end.
Proof.
  unfold leave_history.
  destruct (lookup e L) as [r|] eqn:E; repeat store_step; reflexivity.
Qed.

Lemma list_employees_ledger L : fst (list_employees L) = L.
Proof. reflexivity. Qed.

Lemma apply_leave_eq e date days reason L :
  apply_leave zero_pad e date days reason L =
  match _normalize_date zero_pad date with
  | None => (L, Returned (Failure InvalidDate))
  | Some nd =>
      if days <=? 0 then (L, Returned (Failure InvalidQuantity))
      else
        match lookup e L with
        | None => (L, Returned (Failure (NotFound e)))
        | Some r =>
            if days >? balance r
            then (L, Returned (Failure (InsufficientBalance days (balance r))))
            else
              (update e (mk_record (balance r - days) (history r ++ applied zero_pad nd days)) L,
               Returned (ApplyOk e (applied zero_pad nd days) days (balance r - days) reason))
        end
  end.
Proof.
  unfold apply_leave.
  destruct (_normalize_date zero_pad date) as [nd|]; [|reflexivity].
  destruct (days <=? 0); [reflexivity|].
  destruct (lookup e L) as [r|] eqn:E; repeat store_step; [|reflexivity].
  destruct (days >? balance r); [reflexivity|].
  cbv zeta. fold (applied zero_pad nd days).
  repeat store_step. cbn. rewrite update_update. reflexivity.
Qed.

Lemma cancel_leave_eq e date L :
  cancel_leave zero_pad e date L =
  match _normalize_date zero_pad date with
  | None => (L, Returned (Failure InvalidDate))
  | Some nd =>
      match lookup e L with
      | None => (L, Returned (Failure (NotFound e)))
      | Some r =>
          if contains nd (history r)
          then (update e (mk_record (balance r + 1) (remove_first nd (history r))) L,
                Returned (CancelOk e nd (balance r + 1)))
          else (L, Returned (Failure (NoSuchLeaveEntry nd e)))
      end
  end.
Proof.
  unfold cancel_leave.
  destruct (_normalize_date zero_pad date) as [nd|]; [|reflexivity].
  destruct (lookup e L) as [r|] eqn:E; repeat store_step; [|reflexivity].
  destruct (contains nd (history r)) eqn:C; cbn [negb]; [|reflexivity].
  unfold list_remove. rewrite C.
  erewrite bind_returned by reflexivity.
  repeat store_step. cbn. rewrite update_update. reflexivity.
Qed.

Lemma admin_adjust_balance_eq a e delta note L :
  admin_adjust_balance a e delta note L =
  match lookup e L with
  | None => (L, Returned (Failure (NotFound e)))
  | Some r =>
      (update e (mk_record (Z.max 0 (balance r + delta)) (history r)) L,
       Returned (AdjustOk e (Z.max 0 (balance r + delta)) a delta note))
  end.
Proof.
  unfold admin_adjust_balance.
  destruct (lookup e L) as [r|] eqn:E; repeat store_step; [|reflexivity].
  cbn [balance history].
  destruct (balance r + delta <? 0) eqn:C.
  - repeat store_step. cbn. rewrite update_update.
    apply Z.ltb_lt in C. rewrite Z.max_l by lia. reflexivity.
  - erewrite bind_returned by reflexivity. repeat store_step. cbn.
    apply Z.ltb_ge in C. rewrite Z.max_r by lia. reflexivity.
Qed.

End ToolEquations.

(** ** Digits and the rendering of numbers *)

Lemma digit_char_spec k :
  0 <= k <= 9 ->
  re_digit (digit_char k) = true /\ ord (digit_char k) - 48 = k /\
  Ascii.eqb (digit_char k) " " = false /\ Ascii.eqb (digit_char k) "-" = false.
Proof.
  intros H.
  assert (D : k = 0 \/ k = 1 \/ k = 2 \/ k = 3 \/ k = 4 \/ k = 5 \/ k = 6 \/
              k = 7 \/ k = 8 \/ k = 9) by lia.
  repeat (destruct D as [-> | D]); try subst k; repeat split; reflexivity.
Qed.

Lemma re_digit_digit_char k : 0 <= k <= 9 -> re_digit (digit_char k) = true.
Proof. intros H. apply (digit_char_spec k H). Qed.

Lemma ord_digit_char k : 0 <= k <= 9 -> ord (digit_char k) - 48 = k.
Proof. intros H. apply (digit_char_spec k H). Qed.

Lemma digit_char_not_blank k : 0 <= k <= 9 -> Ascii.eqb (digit_char k) " " = false.
Proof. intros H. apply (digit_char_spec k H). Qed.

Lemma digit_char_nonzero k : 1 <= k <= 9 -> Ascii.eqb (digit_char k) "0" = false.
Proof.
  intros H.
  assert (D : k = 1 \/ k = 2 \/ k = 3 \/ k = 4 \/ k = 5 \/ k = 6 \/
              k = 7 \/ k = 8 \/ k = 9) by lia.
  repeat (destruct D as [-> | D]); try subst k; reflexivity.
Qed.

Lemma re_digit_inv c : re_digit c = true -> 0 <= ord c - 48 <= 9 /\ c = digit_char (ord c - 48).
Proof.
  unfold re_digit, between, digit_char, ord. intros H.
  apply andb_true_iff in H. destruct H as [H1 H2].
  apply Z.leb_le in H1, H2. cbn in H1, H2. split; [lia|].
  replace (Z.to_N (48 + (Z.of_N (N_of_ascii c) - 48))) with (N_of_ascii c) by lia.
  symmetry. apply ascii_N_embedding.
Qed.

Lemma year_digits y :
  0 <= y <= 9999 ->
  0 <= y / 1000 <= 9 /\ 0 <= y / 100 mod 10 <= 9 /\ 0 <= y / 10 mod 10 <= 9 /\
  0 <= y mod 10 <= 9 /\
  y = 1000 * (y / 1000) + 100 * (y / 100 mod 10) + 10 * (y / 10 mod 10) + y mod 10.
Proof. intros H. repeat split; Z.to_euclidean_division_equations; lia. Qed.

Lemma match_Y_four_digits y s :
  0 <= y <= 9999 ->
  match_classes re_Y (four_digits y ++ s) = Some (four_digits y, s).
Proof.
  intros H. destruct (year_digits y H) as (H1 & H2 & H3 & H4 & _).
  unfold four_digits, re_Y. cbn [append match_classes].
  rewrite !re_digit_digit_char by assumption. reflexivity.
Qed.

Lemma py_int_four_digits y : 0 <= y <= 9999 -> py_int (four_digits y) = Some y.
Proof.
  intros H. destruct (year_digits y H) as (H1 & H2 & H3 & H4 & E).
  unfold py_int, four_digits. cbn [lstrip].
  rewrite digit_char_not_blank by assumption. cbn [int_digits].
  rewrite !re_digit_digit_char, !ord_digit_char by assumption.
  f_equal. lia.
Qed.

(** ** The month and day directives on the texts they accept *)

Ltac split_In H :=
  repeat (destruct H as [H | H]; [inversion H; clear H; subst | ]);
  try contradiction.

Lemma month_texts_spec ms m :
  In (ms, m) month_texts -> py_int ms = Some m /\ 1 <= m <= 12.
Proof.
  intros H. vm_compute in H. split_In H; (split; [reflexivity | lia]).
Qed.

Lemma day_texts_spec ds d :
  In (ds, d) day_texts -> py_int ds = Some d /\ 1 <= d <= 31.
Proof.
  intros H. vm_compute in H. split_In H; (split; [reflexivity | lia]).
Qed.

Lemma match_month_day_texts ms m ds d :
  In (ms, m) month_texts -> In (ds, d) day_texts ->
  match_month_day (ms ++ "-" ++ ds) = Some (ms, ds, "").
Proof.
  intros Hm Hd. vm_compute in Hm. vm_compute in Hd.
  split_In Hm; split_In Hd; vm_compute; reflexivity.
Qed.

Lemma two_digits_month m : 1 <= m <= 12 -> In (two_digits m, m) month_texts.
Proof.
  intros H. unfold month_texts. apply in_or_app. left.
  apply (in_map (fun m => (two_digits m, m))). cbn. lia.
Qed.

Lemma two_digits_day d : 1 <= d <= 31 -> In (two_digits d, d) day_texts.
Proof.
  intros H. unfold day_texts. apply in_or_app. left.
  apply (in_map (fun d => (two_digits d, d))). cbn. lia.
Qed.

(** ** [strptime] and [strftime] *)

Lemma valid_date_bounds y m d :
  valid_date y m d = true ->
  1 <= y <= 9999 /\ 1 <= m <= 12 /\ 1 <= d <= days_in_month y m.
Proof.
  unfold valid_date. rewrite !andb_true_iff, !Z.leb_le. lia.
Qed.

Lemma days_in_month_bounds y m : 28 <= days_in_month y m <= 31.
Proof.
  unfold days_in_month.
  destruct (m =? 2); [destruct (is_leap y); lia|].
  destruct ((m =? 4) || (m =? 6) || (m =? 9) || (m =? 11)); lia.
Qed.

Lemma strptime_lenient y m d ms ds :
  valid_date y m d = true ->
  In (ms, m) month_texts -> In (ds, d) day_texts ->
  strptime (four_digits y ++ "-" ++ ms ++ "-" ++ ds) = Returned (mk_datetime y m d).
Proof.
  intros V Hm Hd.
  destruct (valid_date_bounds _ _ _ V) as (Hy & _ & _).
  unfold strptime, format_regex_match.
  rewrite match_Y_four_digits by lia.
  change ("-" ++ ms ++ "-" ++ ds) with (String "-" (ms ++ "-" ++ ds)).
  cbn [match_classes]. change (lit "-" "-"%char) with true. cbv iota.
  rewrite (match_month_day_texts _ _ _ _ Hm Hd).
  rewrite py_int_four_digits by lia.
  rewrite (proj1 (month_texts_spec _ _ Hm)), (proj1 (day_texts_spec _ _ Hd)).
  unfold new_datetime. rewrite V. reflexivity.
Qed.

Lemma strptime_valid s dt :
  strptime s = Returned dt -> valid_date (year dt) (month dt) (day dt) = true.
Proof.
  unfold strptime.
  destruct (format_regex_match s) as [[[[Y m] d] rest]|]; [|discriminate].
  destruct rest; [|discriminate].
  destruct (py_int Y), (py_int m), (py_int d); try discriminate.
  unfold new_datetime. destruct (valid_date z z0 z1) eqn:V; [|discriminate].
  intros [= <-]. exact V.
Qed.

Lemma format_Y_four_digits zero_pad y :
  0 <= y <= 9999 -> zero_pad = true \/ 1000 <= y ->
  format_Y zero_pad y = four_digits y.
Proof.
  intros Hy [-> | H]; [reflexivity|].
  destruct zero_pad; [reflexivity|].
  unfold format_Y, four_digits. cbn [strip_zeros].
  rewrite digit_char_nonzero; [reflexivity|].
  Z.to_euclidean_division_equations; lia.
Qed.

(** Parsing what [strftime] printed gives the date back, as long as the
    year is printed with four digits. *)
Lemma strptime_strftime zero_pad y m d :
  valid_date y m d = true -> zero_pad = true \/ 1000 <= y ->
  strptime (strftime zero_pad (mk_datetime y m d)) = Returned (mk_datetime y m d).
Proof.
  intros V P. destruct (valid_date_bounds _ _ _ V) as (Hy & Hm & Hd).
  pose proof (days_in_month_bounds y m).
  unfold strftime. cbn [year month day].
  rewrite format_Y_four_digits by (auto; lia).
  apply strptime_lenient; [exact V | apply two_digits_month | apply two_digits_day]; lia.
Qed.

(** A year below 1000 printed without padding is not read back. *)
Lemma strptime_strftime_unpadded y m d :
  1 <= y < 1000 ->
  strptime (strftime false (mk_datetime y m d)) = Raised ValueError.
Proof.
  intros Hy.
  assert (Hy' : 0 <= y <= 9999) by lia.
  destruct (year_digits y Hy') as (H1 & H2 & H3 & H4 & E).
  assert (Z1 : y / 1000 = 0) by (Z.to_euclidean_division_equations; lia).
  unfold strptime, format_regex_match, strftime, format_Y, four_digits.
  cbn [year month day]. rewrite Z1. cbn [strip_zeros].
  change (Ascii.eqb (digit_char 0) "0") with true. cbv iota.
  destruct (Z.eq_dec (y / 100 mod 10) 0) as [Z2 | N2].
  - rewrite Z2. change (Ascii.eqb (digit_char 0) "0") with true. cbv iota.
    destruct (Z.eq_dec (y / 10 mod 10) 0) as [Z3 | N3].
    + rewrite Z3. change (Ascii.eqb (digit_char 0) "0") with true. cbv iota.
      cbn [append match_classes re_Y].
      rewrite re_digit_digit_char by assumption. reflexivity.
    + rewrite digit_char_nonzero by lia.
      cbn [append match_classes re_Y].
      rewrite !re_digit_digit_char by assumption. reflexivity.
  - rewrite digit_char_nonzero by lia.
    cbn [append match_classes re_Y].
    rewrite !re_digit_digit_char by assumption. reflexivity.
Qed.

(** ** Loops and ranges *)

Lemma In_range i n : In i (range n) <-> 0 <= i < n.
Proof.
  unfold range. rewrite in_map_iff. split.
  - intros (k & <- & Hk). apply in_seq in Hk. lia.
  - intros H. exists (Z.to_nat i). split; [lia|]. apply in_seq. lia.
Qed.

Lemma length_range n : len (range n) = Z.max 0 n.
Proof. unfold len, range. rewrite length_map, length_seq. lia. Qed.

Lemma range_one : range 1 = [0].
Proof. reflexivity. Qed.

Lemma range_head n : 1 <= n -> exists t, range n = 0 :: t.
Proof.
  intros H. unfold range.
  destruct (Z.to_nat n) as [|k] eqn:E; [lia|]. cbn. eauto.
Qed.

Lemma for_each_all {A B : Type} (f : A -> Outcome B) (g : A -> B) l :
  (forall x, In x l -> f x = Returned (g x)) ->
  for_each f l = Returned (map g l).
Proof.
  induction l as [|x l IH]; intros H; cbn; [reflexivity|].
  rewrite (H x) by (left; reflexivity).
  rewrite IH by (intros; apply H; right; assumption). reflexivity.
Qed.

Lemma for_each_raises {A B : Type} (f : A -> Outcome B) l x e :
  In x l -> f x = Raised e -> exists e', for_each f l = Raised e'.
Proof.
  induction l as [|y l IH]; intros HI Hx; [contradiction|]. cbn.
  destruct HI as [-> | HI].
  - rewrite Hx. eauto.
  - destruct (f y); [|eauto].
    destruct (IH HI Hx) as [e' ->]. eauto.
Qed.

Lemma for_each_returned {A B : Type} (f : A -> Outcome B) l ys :
  for_each f l = Returned ys ->
  List.length ys = List.length l /\ forall x, In x l -> exists y, f x = Returned y.
Proof.
  revert ys. induction l as [|x l IH]; intros ys; cbn.
  - intros [= <-]. split; [reflexivity | contradiction].
  - destruct (f x) as [y|] eqn:Fx; [|discriminate].
    destruct (for_each f l) as [ys'|]; [|discriminate].
    intros [= <-]. destruct (IH _ eq_refl) as [Hl Hx].
    split; [cbn; congruence|].
    intros z [<- | Hz]; eauto.
Qed.

(** ** Consecutive dates inside one month *)

Lemma consecutive_dates_in_month y m n d :
  d + Z.of_nat n - 1 <= days_in_month y m ->
  consecutive_dates (mk_datetime y m d) n =
  map (fun i => mk_datetime y m (d + Z.of_nat i)) (seq 0 n).
Proof.
  revert d. induction n as [|n IH]; intros d H; [reflexivity|].
  cbn [consecutive_dates seq map]. rewrite Z.add_0_r. f_equal.
  destruct n as [|n']; [reflexivity|].
  unfold next_day. cbn [year month day].
  destruct (d <? days_in_month y m) eqn:C; [|apply Z.ltb_ge in C; lia].
  rewrite IH by lia. rewrite <- seq_shift, map_map.
  apply map_ext. intros i. f_equal. lia.
Qed.

Lemma length_consecutive_dates dt n : List.length (consecutive_dates dt n) = n.
Proof. revert dt. induction n; intros; cbn; auto. Qed.

(** ** The day-by-day expansion of [apply_leave] *)

Section Expansion.

Variable zero_pad : bool.

(** Inside the month the naive increment yields the calendar dates. *)
Lemma expand_dates_in_month y m d days :
  valid_date y m d = true -> zero_pad = true \/ 1000 <= y ->
  d + days - 1 <= days_in_month y m ->
  expand_dates zero_pad (strftime zero_pad (mk_datetime y m d)) days =
  Returned (map (strftime zero_pad) (consecutive_dates (mk_datetime y m d) (Z.to_nat days))).
Proof.
  intros V P H. unfold expand_dates.
  rewrite (strptime_strftime _ _ _ _ V P).
  destruct (valid_date_bounds _ _ _ V) as (Hy & Hm & Hd).
  rewrite consecutive_dates_in_month by lia.
  replace (map (strftime zero_pad) _)
    with (map (fun i => strftime zero_pad (mk_datetime y m (d + i))) (range days))
    by (unfold range; rewrite !map_map; reflexivity).
  apply for_each_all. intros i Hi. apply In_range in Hi. cbn [year month day].
  destruct (i =? 0) eqn:E.
  - apply Z.eqb_eq in E. subst i. rewrite Z.add_0_r. reflexivity.
  - unfold replace_day, new_datetime. cbn [year month day].
    replace (valid_date y m (d + i)) with true; [reflexivity|].
    symmetry. unfold valid_date. rewrite !andb_true_iff, !Z.leb_le. lia.
Qed.

(** X2. For a valid start date, when the start day plus [days - 1] passes
    the end of the month, the day-by-day expansion raises. *)
Lemma expand_dates_past_month y m d days :
  valid_date y m d = true ->
  days_in_month y m < d + days - 1 ->
  exists e, expand_dates zero_pad (strftime zero_pad (mk_datetime y m d)) days = Raised e.
Proof.
  intros V H. unfold expand_dates.
  destruct (strptime (strftime zero_pad (mk_datetime y m d))) as [base|e] eqn:S; [|eauto].
  destruct (valid_date_bounds _ _ _ V) as (Hy & Hm & Hd).
  assert (B : base = mk_datetime y m d).
  { destruct zero_pad.
    - rewrite strptime_strftime in S by auto. congruence.
    - destruct (Z_lt_ge_dec y 1000).
      + rewrite strptime_strftime_unpadded in S by lia. discriminate.
      + rewrite strptime_strftime in S by (auto; lia). congruence. }
  subst base. cbn [year month day].
  apply for_each_raises with (x := days_in_month y m - d + 1) (e := ValueError).
  - apply In_range. lia.
  - replace (days_in_month y m - d + 1 =? 0) with false by lia.
    unfold replace_day, new_datetime. cbn [year month day].
    replace (valid_date y m (d + (days_in_month y m - d + 1))) with false; [reflexivity|].
    symmetry. unfold valid_date. rewrite !andb_false_iff, !Z.leb_gt. lia.
Qed.

(** Whatever the expansion does, the normalized date comes first. *)
Lemma applied_head y m d days :
  valid_date y m d = true -> 1 <= days ->
  exists t, applied zero_pad (strftime zero_pad (mk_datetime y m d)) days =
            strftime zero_pad (mk_datetime y m d) :: t.
Proof.
  intros V H. unfold applied, expand_dates.
  destruct (strptime (strftime zero_pad (mk_datetime y m d))) as [base|e] eqn:S; [|eauto].
  destruct (valid_date_bounds _ _ _ V) as (Hy & Hm & Hd).
  assert (B : base = mk_datetime y m d).
  { destruct zero_pad.
    - rewrite strptime_strftime in S by auto. congruence.
    - destruct (Z_lt_ge_dec y 1000).
      + rewrite strptime_strftime_unpadded in S by lia. discriminate.
      + rewrite strptime_strftime in S by (auto; lia). congruence. }
  subst base. destruct (range_head days H) as [t ->]. cbn [for_each Z.eqb].
  match goal with |- context [for_each ?f t] => destruct (for_each f t) end; eauto.
Qed.

Lemma applied_one y m d :
  valid_date y m d = true ->
  applied zero_pad (strftime zero_pad (mk_datetime y m d)) 1 =
  [strftime zero_pad (mk_datetime y m d)].
Proof.
  intros V. unfold applied, expand_dates.
  destruct (strptime (strftime zero_pad (mk_datetime y m d))) as [base|e] eqn:S;
    [|reflexivity].
  destruct (valid_date_bounds _ _ _ V) as (Hy & Hm & Hd).
  assert (B : base = mk_datetime y m d).
  { destruct zero_pad.
    - rewrite strptime_strftime in S by auto. congruence.
    - destruct (Z_lt_ge_dec y 1000).
      + rewrite strptime_strftime_unpadded in S by lia. discriminate.
      + rewrite strptime_strftime in S by (auto; lia). congruence. }
  subst base. reflexivity.
Qed.

(** [_normalize_date] answers with the printed form of a valid date. *)
Lemma normalize_date_inv date nd :
  _normalize_date zero_pad date = Some nd ->
  exists dt, strptime date = Returned dt /\ nd = strftime zero_pad dt /\
             valid_date (year dt) (month dt) (day dt) = true.
Proof.
  unfold _normalize_date.
  destruct (strptime date) as [dt|] eqn:S; [|discriminate].
  intros [= <-]. exists dt. repeat split. exact (strptime_valid _ _ S).
Qed.

End Expansion.

(** ** Lists of dates *)

Lemma contains_In x l : contains x l = true <-> In x l.
Proof.
  unfold contains. rewrite existsb_exists. split.
  - intros (y & Hy & E). apply String.eqb_eq in E. subst. exact Hy.
  - intros H. exists x. split; [exact H | apply String.eqb_refl].
Qed.

Lemma count_app x l1 l2 : count x (l1 ++ l2) = (count x l1 + count x l2)%nat.
Proof. unfold count. rewrite filter_app, length_app. reflexivity. Qed.

Lemma count_remove_first z x l :
  contains x l = true ->
  (count z (remove_first x l) + count z [x] = count z l)%nat.
Proof.
  induction l as [|y l IH]; [discriminate|].
  unfold contains. cbn [existsb remove_first].
  destruct (String.eqb x y) eqn:E.
  - intros _. apply String.eqb_eq in E. subst y.
    change (x :: l) with ([x] ++ l)%list. rewrite count_app. lia.
  - cbn [orb]. intros H. specialize (IH H).
    change (y :: remove_first x l) with ([y] ++ remove_first x l)%list.
    change (y :: l) with ([y] ++ l)%list. rewrite !count_app. lia.
Qed.

Lemma slice_to_prefix {A : Type} (l : list A) limit :
  exists t, l = (slice_to l limit ++ t)%list.
Proof.
  unfold slice_to. destruct (limit <? 0).
  - exists (skipn (Z.to_nat (Z.of_nat (List.length l) + limit)) l).
    symmetry. apply firstn_skipn.
  - exists (skipn (Z.to_nat limit) l). symmetry. apply firstn_skipn.
Qed.

Lemma slice_to_nonneg {A : Type} (l : list A) limit :
  0 <= limit ->
  slice_to l limit = firstn (Z.to_nat limit) l /\
  len (slice_to l limit) = Z.min limit (len l).
Proof.
  intros H. unfold slice_to, len.
  replace (limit <? 0) with false by lia.
  split; [reflexivity|]. rewrite length_firstn. lia.
Qed.

(** ** What the matcher accepts *)








Lemma lit_inv a c : lit a c = true -> c = a.
Proof. unfold lit. intros H. apply Ascii.eqb_eq in H. auto. Qed.












Lemma int_digits_cons acc c s :
  re_digit c = true ->
  int_digits acc (String c s) = int_digits (10 * acc + (ord c - 48)) s.
Proof. intros H. cbn [int_digits]. rewrite H. reflexivity. Qed.



(** A text in the spec's exact format is the four-two-two digit rendering
    of a valid date. *)
Lemma exact_format_shape s :
  exact_format s = true ->
  exists y m d,
    valid_date y m d = true /\
    s = four_digits y ++ "-" ++ two_digits m ++ "-" ++ two_digits d.
Proof.
  unfold exact_format, exact_classes. intros H.
  destruct s as [|c1 [|c2 [|c3 [|c4 [|h1 [|c5 [|c6 [|h2 [|c7 [|c8 s]]]]]]]]]];
    cbn [match_classes] in H;
    repeat match type of H with
      | context [if ?p ?c then _ else _] =>
          let E := fresh "D" in destruct (p c) eqn:E
      end; try discriminate H.
  destruct s; [|discriminate H].
  cbn [substring] in H.
  rewrite !int_digits_cons in H by assumption.
  change (int_digits ?a "") with (Some a) in H.
  cbv iota beta in H.
  apply lit_inv in D3, D6. subst h1 h2.
  destruct (re_digit_inv _ D) as [R1 E1], (re_digit_inv _ D0) as [R2 E2],
    (re_digit_inv _ D1) as [R3 E3], (re_digit_inv _ D2) as [R4 E4],
    (re_digit_inv _ D4) as [R5 E5], (re_digit_inv _ D5) as [R6 E6],
    (re_digit_inv _ D7) as [R7 E7], (re_digit_inv _ D8) as [R8 E8].
  set (k1 := ord c1 - 48) in *. set (k2 := ord c2 - 48) in *.
  set (k3 := ord c3 - 48) in *. set (k4 := ord c4 - 48) in *.
  set (k5 := ord c5 - 48) in *. set (k6 := ord c6 - 48) in *.
  set (k7 := ord c7 - 48) in *. set (k8 := ord c8 - 48) in *.
  eexists _, _, _. split; [exact H|].
  unfold four_digits, two_digits. cbn [append].
  rewrite E1, E2, E3, E4, E5, E6, E7, E8.
  repeat f_equal; Z.to_euclidean_division_equations; lia.
Qed.


(* ================================================================= *)
(** * The claims *)

Section Claims.

Variable zero_pad : bool.

Lemma lookup_nonneg e r L :
  nonneg_balances L -> lookup e L = Some r -> 0 <= balance r.
Proof.
  intros HL He. unfold nonneg_balances in HL. rewrite Forall_forall in HL.
  exact (HL _ (lookup_In _ _ _ He)).
Qed.

Lemma call_keeps_balances_nonneg op L :
  nonneg_balances L -> nonneg_balances (fst (call zero_pad op L)).
Proof.
  intros HL. destruct op as [e | e d n rs | e d | e l | a e dl nt | ]; cbn [call].
  - rewrite check_balance_eq. destruct (lookup e L); exact HL.
  - rewrite apply_leave_eq.
    destruct (_normalize_date zero_pad d); [|exact HL].
    destruct (n <=? 0) eqn:N; [exact HL|].
    destruct (lookup e L) as [r|] eqn:E; [|exact HL].
    destruct (n >? balance r) eqn:B; [exact HL|].
    cbn [fst]. apply Forall_update; [exact HL|]. intros k. cbn. lia.
  - rewrite cancel_leave_eq.
    destruct (_normalize_date zero_pad d); [|exact HL].
    destruct (lookup e L) as [r|] eqn:E; [|exact HL].
    destruct (contains s (history r)); [|exact HL].
    cbn [fst]. apply Forall_update; [exact HL|]. intros k. cbn.
    pose proof (lookup_nonneg _ _ _ HL E). lia.
  - rewrite leave_history_eq. destruct (lookup e L); exact HL.
  - rewrite admin_adjust_balance_eq.
    destruct (lookup e L) as [r|] eqn:E; [|exact HL].
    cbn [fst]. apply Forall_update; [exact HL|]. intros k. cbn. lia.
  - exact HL.
Qed.

Lemma run_keeps_balances_nonneg ops L :
  nonneg_balances L -> nonneg_balances (run zero_pad ops L).
Proof.
  revert L. induction ops as [|op ops IH]; intros L HL; [exact HL|].
  cbn [run]. apply IH. apply call_keeps_balances_nonneg. exact HL.
Qed.

Lemma seed_balances_nonneg : nonneg_balances employee_leaves.
Proof. unfold nonneg_balances, employee_leaves. repeat constructor; cbn; lia. Qed.

(** C1. Starting from the seeded ledger, after every prefix of every finite
    sequence of tool calls with arbitrary arguments, the balance of every
    employee in the ledger is at least 0. *)
Theorem balance_never_negative (ops : list Op) (n : nat) :
  nonneg_balances (run zero_pad (firstn n ops) employee_leaves).
Proof.
  apply run_keeps_balances_nonneg. exact seed_balances_nonneg.
Qed.




(** C4. For a known employee with balance at least [days >= 1] and a date the
    normalization accepts, [apply_leave] succeeds and the following
    [cancel_leave] of the same date succeeds too, leaving the balance at the
    pre-apply value minus [days] plus 1; for [days = 1] that is the
    pre-apply balance, and the cancel removes exactly one occurrence of the
    normalized date, so that every date occurs in the history as often as
    before the apply. *)
Theorem apply_then_cancel (e date : string) (days : Z) (reason : option string)
    (r : EmployeeRecord) (nd : string) (L : Ledger) :
  lookup e L = Some r ->
  _normalize_date zero_pad date = Some nd ->
  1 <= days <= balance r ->
  exists dates r1 r2,
    snd (apply_leave zero_pad e date days reason L)
      = Returned (ApplyOk e dates days (balance r - days) reason) /\
    lookup e (fst (apply_leave zero_pad e date days reason L)) = Some r1 /\
    snd (cancel_leave zero_pad e date
           (fst (apply_leave zero_pad e date days reason L)))
      = Returned (CancelOk e nd (balance r - days + 1)) /\
    lookup e (fst (cancel_leave zero_pad e date
                     (fst (apply_leave zero_pad e date days reason L))))
      = Some r2 /\
    balance r2 = balance r - days + 1 /\
    history r2 = remove_first nd (history r1) /\
    (count nd (history r2) + 1 = count nd (history r1))%nat /\
    (days = 1 ->
     balance r2 = balance r /\
     history r1 = (history r ++ [nd])%list /\
     forall x, count x (history r2) = count x (history r)).
Proof.
  intros E ND D.
  destruct (normalize_date_inv _ _ _ ND) as ([y m d] & _ & Hnd & V).
  cbn [year month day] in V.
  destruct (applied_head zero_pad y m d days V ltac:(lia)) as [t Ht].
  rewrite <- Hnd in Ht.
  rewrite apply_leave_eq, ND.
  replace (days <=? 0) with false by lia. rewrite E.
  replace (days >? balance r) with false by lia. cbn [fst snd].
  rewrite cancel_leave_eq, ND.
  rewrite (lookup_update_same _ _ _ _ E). cbn [history balance].
  assert (C : contains nd (history r ++ applied zero_pad nd days) = true).
  { apply contains_In. apply in_or_app. right. rewrite Ht. left. reflexivity. }
  rewrite C. cbn [fst snd]. rewrite update_update.
  rewrite (lookup_update_same _ _ _ _ E).
  eexists _, _, _. repeat split; cbn [history balance].
  - pose proof (count_remove_first nd nd _ C) as Q.
    unfold count at 2 in Q. cbn in Q. rewrite String.eqb_refl in Q. cbn in Q.
    exact Q.
  - subst days. lia.
  - subst days. rewrite Hnd. rewrite applied_one by exact V. reflexivity.
  - intros x. subst days. rewrite Hnd in *. rewrite applied_one in * by exact V.
    pose proof (count_remove_first x _ _ C) as Q.
    rewrite count_app in Q. lia.
Qed.


(** C8, as the code has it. For a known employee, [leave_history] returns a prefix of
    the reversal of the insertion-ordered history, for every [limit]; for
    every [limit >= 0] that prefix is the first [limit] entries of the
    reversal, so it has [min limit (length history)] entries, at most
    [limit]. *)
Theorem leave_history_prefix (e : string) (limit : Z) (r : EmployeeRecord)
    (L : Ledger) :
  lookup e L = Some r ->
  exists h,
    leave_history e limit L = (L, Returned (HistoryOk e h limit)) /\
    (exists t, rev (history r) = (h ++ t)%list) /\
    (0 <= limit ->
     h = firstn (Z.to_nat limit) (rev (history r)) /\
     len h = Z.min limit (len (history r)) /\ len h <= limit).
Proof.
  intros E. rewrite leave_history_eq, E.
  exists (slice_to (rev (history r)) limit). split; [reflexivity|].
  split; [apply slice_to_prefix|].
  intros H. destruct (slice_to_nonneg (rev (history r)) limit H) as [H1 H2].
  rewrite H2. unfold len. rewrite length_rev.
  repeat split; [exact H1 | lia].
Qed.

(** C10. For a known employee, an accepted date and [1 <= days <= balance]:
    if the day-by-day expansion raises, [apply_leave] still answers with
    "ok" true, takes the full [days] off the balance, and appends to the
    history, and returns as [applied_dates], the normalized start date
    alone. *)
Theorem apply_leave_fallback (e date : string) (days : Z)
    (reason : option string) (r : EmployeeRecord) (nd : string) (ex : PyExn)
    (L : Ledger) :
  lookup e L = Some r ->
  _normalize_date zero_pad date = Some nd ->
  1 <= days <= balance r ->
  expand_dates zero_pad nd days = Raised ex ->
  apply_leave zero_pad e date days reason L =
  (update e (mk_record (balance r - days) (history r ++ [nd])) L,
   Returned (ApplyOk e [nd] days (balance r - days) reason)).
Proof.
  intros E ND D X. rewrite apply_leave_eq, ND.
  replace (days <=? 0) with false by lia. rewrite E.
  replace (days >? balance r) with false by lia.
  unfold applied. rewrite X. reflexivity.
Qed.

(** X1. For a known employee, a date [strptime] accepts and
    [1 <= days <= balance], [apply_leave] succeeds, takes exactly [days] off
    the balance, appends the returned [applied_dates] to the end of the
    history in their order and returns them with the new balance; when the
    start day plus [days - 1] does not pass the end of the start month (and
    the year is printed with four digits), [applied_dates] are exactly the
    [days] consecutive calendar dates that start at the given date. *)
Theorem apply_leave_records_days (e date : string) (days : Z)
    (reason : option string) (r : EmployeeRecord) (dt : datetime) (L : Ledger) :
  lookup e L = Some r ->
  strptime date = Returned dt ->
  1 <= days <= balance r ->
  exists dates,
    apply_leave zero_pad e date days reason L =
      (update e (mk_record (balance r - days) (history r ++ dates)) L,
       Returned (ApplyOk e dates days (balance r - days) reason)) /\
    lookup e (fst (apply_leave zero_pad e date days reason L)) =
      Some (mk_record (balance r - days) (history r ++ dates)) /\
    (day dt + days - 1 <= days_in_month (year dt) (month dt) ->
     zero_pad = true \/ 1000 <= year dt ->
     dates = map (strftime zero_pad) (consecutive_dates dt (Z.to_nat days)) /\
     len dates = days).
Proof.
  intros E S D.
  exists (applied zero_pad (strftime zero_pad dt) days).
  rewrite apply_leave_eq. unfold _normalize_date. rewrite S.
  replace (days <=? 0) with false by lia. rewrite E.
  replace (days >? balance r) with false by lia. cbn [fst].
  split; [reflexivity|]. split; [exact (lookup_update_same _ _ _ _ E)|].
  intros M P. pose proof (strptime_valid _ _ S) as V.
  destruct dt as [y m d]. cbn [year month day] in *.
  unfold applied. rewrite expand_dates_in_month by assumption.
  split; [reflexivity|].
  unfold len. rewrite length_map, length_consecutive_dates. lia.
Qed.


(** C9, as the code has it. The read-only tools leave the whole ledger as it is; no
    call changes the record of an employee other than the one it addresses;
    no call adds or removes a key; and a call that addresses an unknown
    identifier fails and leaves the ledger as it is, creating no record:
    with [NotFound], unless [apply_leave] or [cancel_leave] reject the date
    or the day count first, in which case with [InvalidDate] or
    [InvalidQuantity]. *)
Theorem frame_of_calls (op : Op) (L : Ledger) :
  (read_only op = true -> fst (call zero_pad op L) = L) /\
  (forall j, addressed op <> Some j ->
             lookup j (fst (call zero_pad op L)) = lookup j L) /\
  keys (fst (call zero_pad op L)) = keys L /\
  (forall e, addressed op = Some e -> lookup e L = None ->
     call zero_pad op L =
       (L, Returned (Failure (match argument_failure zero_pad op with
                              | Some kind => kind
                              | None => NotFound e
                              end)))).
Proof.
  destruct op as [e | e d n rs | e d | e l | a e dl nt | ];
    cbn [call read_only addressed argument_failure].
  - rewrite check_balance_eq.
    repeat split; try (destruct (lookup e L); reflexivity).
    intros e' [= <-] N. rewrite N. reflexivity.
  - rewrite apply_leave_eq.
    destruct (_normalize_date zero_pad d) as [nd|];
      [|repeat split; try reflexivity; discriminate].
    destruct (n <=? 0); [repeat split; try reflexivity; discriminate|].
    destruct (lookup e L) as [r|] eqn:E.
    + destruct (n >? balance r); [repeat split; try reflexivity; try discriminate; congruence|].
      cbn [fst]. repeat split; try discriminate.
      * intros j Hj. apply lookup_update_other. congruence.
      * apply keys_update.
      * congruence.
    + repeat split; try reflexivity; try discriminate. congruence.
  - rewrite cancel_leave_eq.
    destruct (_normalize_date zero_pad d) as [nd|];
      [|repeat split; try reflexivity; discriminate].
    destruct (lookup e L) as [r|] eqn:E.
    + destruct (contains nd (history r)); [|repeat split; try reflexivity; try discriminate; congruence].
      cbn [fst]. repeat split; try discriminate.
      * intros j Hj. apply lookup_update_other. congruence.
      * apply keys_update.
      * congruence.
    + repeat split; try reflexivity; try discriminate. congruence.
  - rewrite leave_history_eq.
    repeat split; try (destruct (lookup e L); reflexivity).
    intros e' [= <-] N. rewrite N. reflexivity.
  - rewrite admin_adjust_balance_eq.
    destruct (lookup e L) as [r|] eqn:E.
    + cbn [fst]. repeat split; try discriminate.
      * intros j Hj. apply lookup_update_other. congruence.
      * apply keys_update.
      * congruence.
    + repeat split; try reflexivity; try discriminate. congruence.
  - repeat split; try reflexivity. discriminate.
Qed.

End Claims.

(* ================================================================= *)
(** * Concrete runs on the seeded ledger *)

(** C2. Two days of leave for E001 from 2025-01-31: the two consecutive
    calendar dates are 2025-01-31 and 2025-02-01, but [apply_leave] answers
    "ok", records and returns 2025-01-31 alone, and takes two days off the
    balance of 18. *)
Lemma apply_leave_past_month_end :
  strptime "2025-01-31" = Returned (mk_datetime 2025 1 31) /\
  map (strftime true) (consecutive_dates (mk_datetime 2025 1 31) 2)
    = ["2025-01-31"; "2025-02-01"] /\
  apply_leave true "E001" "2025-01-31" 2 None employee_leaves =
    ([ ("E001", mk_record 16 ["2024-12-25"; "2025-01-01"; "2025-01-31"]);
       ("E002", mk_record 20 []); ("Prakash", mk_record 20 []) ],
     Returned (ApplyOk "E001" ["2025-01-31"] 2 16 None)) /\
  apply_leave false "E001" "2025-01-31" 2 None employee_leaves =
  apply_leave true "E001" "2025-01-31" 2 None employee_leaves.
Proof. repeat split; reflexivity. Qed.

Lemma apply_leave_records_days_witness :
  exists dates,
    apply_leave false "E001" "2025-03-01" 2 None employee_leaves =
      ([ ("E001", mk_record 16 (["2024-12-25"; "2025-01-01"] ++ dates));
         ("E002", mk_record 20 []); ("Prakash", mk_record 20 []) ],
       Returned (ApplyOk "E001" dates 2 16 None)) /\
    dates = ["2025-03-01"; "2025-03-02"].
Proof.
  destruct (apply_leave_records_days false "E001" "2025-03-01" 2 None
              (mk_record 18 ["2024-12-25"; "2025-01-01"])
              (mk_datetime 2025 3 1) employee_leaves)
    as (dates & H1 & _ & H3).
  - reflexivity.
  - reflexivity.
  - simpl. lia.
  - exists dates. split; [exact H1|].
    apply H3; [vm_compute; discriminate | right; simpl; lia].
Defined.


Lemma apply_then_cancel_witness :
  exists dates r1 r2,
    snd (apply_leave false "E001" "2025-03-01" 2 None employee_leaves)
      = Returned (ApplyOk "E001" dates 2 (18 - 2) None) /\
    lookup "E001" (fst (apply_leave false "E001" "2025-03-01" 2 None employee_leaves))
      = Some r1 /\
    snd (cancel_leave false "E001" "2025-03-01"
           (fst (apply_leave false "E001" "2025-03-01" 2 None employee_leaves)))
      = Returned (CancelOk "E001" "2025-03-01" (18 - 2 + 1)) /\
    lookup "E001"
      (fst (cancel_leave false "E001" "2025-03-01"
              (fst (apply_leave false "E001" "2025-03-01" 2 None employee_leaves))))
      = Some r2 /\
    balance r2 = 18 - 2 + 1.
Proof.
  destruct (apply_then_cancel false "E001" "2025-03-01" 2 None
              (mk_record 18 ["2024-12-25"; "2025-01-01"]) "2025-03-01"
              employee_leaves)
    as (dates & r1 & r2 & H1 & H2 & H3 & H4 & H5 & _).
  - reflexivity.
  - reflexivity.
  - simpl. lia.
  - exists dates, r1, r2. repeat split; assumption.
Defined.





(** C8. With a limit of -1 the tool returns one entry, more than the
    limit. *)
Lemma negative_limit_returns_entries :
  leave_history "E001" (-1) employee_leaves
    = (employee_leaves, Returned (HistoryOk "E001" ["2025-01-01"] (-1))) /\
  ~ len ["2025-01-01"] <= -1.
Proof. split; [reflexivity | unfold len; simpl; lia]. Qed.

Lemma leave_history_prefix_witness :
  exists h,
    leave_history "E001" 1 employee_leaves
      = (employee_leaves, Returned (HistoryOk "E001" h 1)) /\
    h = ["2025-01-01"] /\ len h <= 1.
Proof.
  destruct (leave_history_prefix "E001" 1
              (mk_record 18 ["2024-12-25"; "2025-01-01"]) employee_leaves)
    as (h & H1 & _ & H3).
  - reflexivity.
  - exists h. split; [exact H1|].
    destruct H3 as (H3 & _ & H5); [lia|]. split; [exact H3 | exact H5].
Defined.

(** C9. On an unknown identifier [apply_leave] and [cancel_leave] report the
    rejected date or day count, not the missing employee. *)
Lemma unknown_employee_other_failure :
  lookup "E999" employee_leaves = None /\
  apply_leave false "E999" "tomorrow" 1 None employee_leaves
    = (employee_leaves, Returned (Failure InvalidDate)) /\
  apply_leave true "E999" "tomorrow" 1 None employee_leaves
    = (employee_leaves, Returned (Failure InvalidDate)) /\
  apply_leave false "E999" "2025-03-01" 0 None employee_leaves
    = (employee_leaves, Returned (Failure InvalidQuantity)) /\
  cancel_leave false "E999" "tomorrow" employee_leaves
    = (employee_leaves, Returned (Failure InvalidDate)).
Proof. repeat split; reflexivity. Qed.

Lemma frame_of_calls_witness :
  call false (CheckBalance "unknown") employee_leaves
    = (employee_leaves, Returned (Failure (NotFound "unknown"))) /\
  lookup "E002" (fst (call false (ApplyLeave "E001" "2025-03-01" 2 None) employee_leaves))
    = lookup "E002" employee_leaves /\
  keys (fst (call false (ApplyLeave "E001" "2025-03-01" 2 None) employee_leaves))
    = keys employee_leaves.
Proof.
  destruct (frame_of_calls false (CheckBalance "unknown") employee_leaves)
    as (_ & _ & _ & H4).
  destruct (frame_of_calls false (ApplyLeave "E001" "2025-03-01" 2 None) employee_leaves)
    as (_ & H2 & H3 & _).
  split; [exact (H4 "unknown" eq_refl eq_refl)|].
  split; [apply H2; discriminate | exact H3].
Defined.

Lemma apply_leave_fallback_witness :
  expand_dates false "2025-01-31" 2 = Raised ValueError /\
  apply_leave false "E001" "2025-01-31" 2 None employee_leaves =
    (update "E001" (mk_record (18 - 2) (["2024-12-25"; "2025-01-01"] ++ ["2025-01-31"]))
       employee_leaves,
     Returned (ApplyOk "E001" ["2025-01-31"] 2 (18 - 2) None)).
Proof.
  split; [reflexivity|].
  apply (apply_leave_fallback false "E001" "2025-01-31" 2 None
           (mk_record 18 ["2024-12-25"; "2025-01-01"]) "2025-01-31" ValueError
           employee_leaves).
  - reflexivity.
  - reflexivity.
  - simpl. lia.
  - reflexivity.
Defined.

Lemma expand_dates_past_month_witness :
  exists e, expand_dates false (strftime false (mk_datetime 2024 2 28)) 3 = Raised e.
Proof.
  apply (expand_dates_past_month false 2024 2 28 3).
  - reflexivity.
  - vm_compute. reflexivity.
Defined.

(* ================================================================= *)
(** * Further properties of the tools *)

(** ** More on the association list *)

Lemma update_same k r L : lookup k L = Some r -> update k r L = L.
Proof.
  induction L as [|[k' r0] L IH]; simpl; [reflexivity|].
  destruct (String.eqb k k') eqn:E.
  - intros [= ->]. reflexivity.
  - intros H. f_equal. auto.
Qed.

Lemma update_comm k1 k2 r1 r2 L :
  k1 <> k2 ->
  update k1 r1 (update k2 r2 L) = update k2 r2 (update k1 r1 L).
Proof.
  intros N. induction L as [|[k r] L IH]; simpl; [reflexivity|].
  destruct (String.eqb k2 k) eqn:E2; destruct (String.eqb k1 k) eqn:E1; simpl;
    rewrite ?E1, ?E2; try reflexivity.
  - apply String.eqb_eq in E1, E2. congruence.
  - f_equal. exact IH.
Qed.

Lemma In_lookup k r L : NoDup (keys L) -> In (k, r) L -> lookup k L = Some r.
Proof.
  induction L as [|[k' r'] L IH]; simpl; [contradiction|].
  intros ND [E | H].
  - injection E as -> ->. rewrite String.eqb_refl. reflexivity.
  - inversion ND as [|? ? Hn ND']; subst.
    destruct (String.eqb k k') eqn:E.
    + apply String.eqb_eq in E. subst k'. exfalso. apply Hn.
      unfold keys. apply (in_map fst) in H. exact H.
    + auto.
Qed.

Lemma record_eta r : mk_record (balance r) (history r) = r.
Proof. destruct r; reflexivity. Qed.

(** ** Normalized dates *)

Lemma month_day_digits m :
  1 <= m <= 31 ->
  0 <= m / 10 <= 9 /\ 0 <= m mod 10 <= 9 /\ m = 10 * (m / 10) + m mod 10.
Proof. intros H. repeat split; Z.to_euclidean_division_equations; lia. Qed.

(** The four-two-two rendering of a valid date is in the exact format. *)
Lemma exact_format_render y m d :
  valid_date y m d = true ->
  exact_format (four_digits y ++ "-" ++ two_digits m ++ "-" ++ two_digits d) = true.
Proof.
  intros V. destruct (valid_date_bounds _ _ _ V) as (Hy & Hm & Hd).
  pose proof (days_in_month_bounds y m) as B.
  destruct (year_digits y ltac:(lia)) as (Y1 & Y2 & Y3 & Y4 & EY).
  destruct (month_day_digits m ltac:(lia)) as (M1 & M2 & EM).
  destruct (month_day_digits d ltac:(lia)) as (D1 & D2 & ED).
  unfold exact_format, exact_classes, four_digits, two_digits.
  cbn [append match_classes].
  rewrite !re_digit_digit_char by assumption.
  change (lit "-" "-"%char) with true. cbv iota.
  cbn [substring].
  rewrite !int_digits_cons by (apply re_digit_digit_char; assumption).
  change (int_digits ?a "") with (Some a). cbv iota beta.
  rewrite !ord_digit_char by assumption.
  replace (10 * (10 * (10 * (10 * 0 + y / 1000) + y / 100 mod 10) + y / 10 mod 10)
           + y mod 10) with y by lia.
  replace (10 * (10 * 0 + m / 10) + m mod 10) with m by lia.
  replace (10 * (10 * 0 + d / 10) + d mod 10) with d by lia.
  exact V.
Qed.

Section Normalization.

Variable zero_pad : bool.

(** X3. When the year is printed with four digits, the text that
    [_normalize_date] returns is in the exact four-two-two format, and
    normalizing it again returns it unchanged. *)
Theorem normalize_date_idempotent (s : string) (dt : datetime) :
  strptime s = Returned dt ->
  zero_pad = true \/ 1000 <= year dt ->
  _normalize_date zero_pad s = Some (strftime zero_pad dt) /\
  exact_format (strftime zero_pad dt) = true /\
  _normalize_date zero_pad (strftime zero_pad dt) = Some (strftime zero_pad dt).
Proof.
  intros S P. pose proof (strptime_valid _ _ S) as V.
  destruct dt as [y m d]. cbn [year month day] in *.
  destruct (valid_date_bounds _ _ _ V) as (Hy & _ & _).
  split; [unfold _normalize_date; rewrite S; reflexivity|].
  split.
  - unfold strftime. cbn [year month day].
    rewrite format_Y_four_digits by (auto; lia).
    apply exact_format_render. exact V.
  - unfold _normalize_date. rewrite strptime_strftime by assumption. reflexivity.
Qed.

(** X4. A text in the exact four-two-two format whose year is printed with
    four digits is returned by [_normalize_date] as it is. *)
Theorem normalize_date_fixes_exact_format (s : string) (dt : datetime) :
  exact_format s = true ->
  strptime s = Returned dt ->
  zero_pad = true \/ 1000 <= year dt ->
  _normalize_date zero_pad s = Some s.
Proof.
  intros X S P.
  destruct (exact_format_shape s X) as (y & m & d & V & ->).
  destruct (valid_date_bounds _ _ _ V) as (Hy & Hm & Hd).
  pose proof (days_in_month_bounds y m) as B.
  rewrite strptime_lenient with (m := m) (d := d) in S;
    [| exact V | apply two_digits_month; lia | apply two_digits_day; lia].
  injection S as <-. cbn [year] in P.
  unfold _normalize_date.
  rewrite strptime_lenient with (m := m) (d := d);
    [| exact V | apply two_digits_month; lia | apply two_digits_day; lia].
  unfold strftime. cbn [year month day].
  rewrite format_Y_four_digits by (auto; lia). reflexivity.
Qed.

End Normalization.

(** X5. Where [strftime] does not pad the year, a date before the year 1000
    is normalized to a text that [_normalize_date] itself rejects, and an
    application for it records that one text whatever the number of days. *)
Theorem small_year_without_padding (s : string) (dt : datetime) (days : Z) :
  strptime s = Returned dt ->
  year dt < 1000 ->
  _normalize_date false s = Some (strftime false dt) /\
  _normalize_date false (strftime false dt) = None /\
  applied false (strftime false dt) days = [strftime false dt].
Proof.
  intros S Y. pose proof (strptime_valid _ _ S) as V.
  destruct dt as [y m d]. cbn [year month day] in *.
  destruct (valid_date_bounds _ _ _ V) as (Hy & _ & _).
  assert (R : strptime (strftime false (mk_datetime y m d)) = Raised ValueError)
    by (apply strptime_strftime_unpadded; lia).
  repeat split.
  - unfold _normalize_date. rewrite S. reflexivity.
  - unfold _normalize_date. rewrite R. reflexivity.
  - unfold applied, expand_dates. rewrite R. reflexivity.
Qed.

(** ** Lists, once more *)

Lemma remove_first_split x h1 h2 :
  ~ In x h1 -> remove_first x (h1 ++ x :: h2) = (h1 ++ h2)%list.
Proof.
  induction h1 as [|y h1 IH]; intros N; cbn.
  - rewrite String.eqb_refl. reflexivity.
  - destruct (String.eqb x y) eqn:E.
    + apply String.eqb_eq in E. subst y. exfalso. apply N. left. reflexivity.
    + f_equal. apply IH. intros H. apply N. right. exact H.
Qed.

Lemma slice_to_rev_app {A : Type} (h ds : list A) :
  slice_to (rev (h ++ ds)) (len ds) = rev ds.
Proof.
  unfold slice_to, len.
  destruct (Z.of_nat (List.length ds) <? 0) eqn:C; [apply Z.ltb_lt in C; lia|].
  rewrite Nat2Z.id, rev_app_distr, <- (length_rev ds).
  rewrite firstn_app, Nat.sub_diag, firstn_all. cbn. apply app_nil_r.
Qed.

Lemma for_each_members {A B : Type} (f : A -> Outcome B) l ys y :
  for_each f l = Returned ys -> In y ys -> exists x, In x l /\ f x = Returned y.
Proof.
  revert ys. induction l as [|x l IH]; intros ys; cbn.
  - intros [= <-] [].
  - destruct (f x) as [y0|] eqn:Fx; [|discriminate].
    destruct (for_each f l) as [ys'|]; [|discriminate].
    intros [= <-] [<- | H]; [eauto|].
    destruct (IH _ eq_refl H) as (x' & Hx & Hf). eauto.
Qed.

(** ** How the tools compose *)

Section Composition.

Variable zero_pad : bool.

(** X6. [apply_leave] answers "ok" exactly when the date is accepted, the
    day count is at least 1, the employee is known and the day count does
    not exceed the balance. *)
Theorem apply_leave_succeeds_iff (e date : string) (days : Z)
    (reason : option string) (L : Ledger) :
  (exists resp, snd (apply_leave zero_pad e date days reason L) = Returned resp /\
                ok resp = true)
  <->
  (exists nd r, _normalize_date zero_pad date = Some nd /\ 1 <= days /\
                lookup e L = Some r /\ days <= balance r).
Proof.
  rewrite apply_leave_eq. split.
  - intros (resp & H & K).
    destruct (_normalize_date zero_pad date) as [nd|];
      [|injection H as <-; discriminate].
    destruct (days <=? 0) eqn:D; [injection H as <-; discriminate|].
    destruct (lookup e L) as [r|]; [|injection H as <-; discriminate].
    destruct (days >? balance r) eqn:B; [injection H as <-; discriminate|].
    exists nd, r. repeat split; lia.
  - intros (nd & r & -> & D & -> & B).
    replace (days <=? 0) with false by lia.
    replace (days >? balance r) with false by lia.
    cbn [snd]. eexists. split; reflexivity.
Qed.

(** X7. [cancel_leave] answers "ok" exactly when the date is accepted, the
    employee is known and the normalized date occurs in the history;
    otherwise the ledger stays as it is. *)
Theorem cancel_leave_succeeds_iff (e date : string) (L : Ledger) :
  ((exists resp, snd (cancel_leave zero_pad e date L) = Returned resp /\
                 ok resp = true)
   <->
   (exists nd r, _normalize_date zero_pad date = Some nd /\
                 lookup e L = Some r /\ In nd (history r))) /\
  ((forall nd r, _normalize_date zero_pad date = Some nd ->
                 lookup e L = Some r -> ~ In nd (history r)) ->
   fst (cancel_leave zero_pad e date L) = L).
Proof.
  rewrite cancel_leave_eq. split; [split|].
  - intros (resp & H & K).
    destruct (_normalize_date zero_pad date) as [nd|];
      [|injection H as <-; discriminate].
    destruct (lookup e L) as [r|]; [|injection H as <-; discriminate].
    destruct (contains nd (history r)) eqn:C; [|injection H as <-; discriminate].
    exists nd, r. repeat split. apply contains_In. exact C.
  - intros (nd & r & -> & -> & I). apply contains_In in I. rewrite I.
    cbn [snd]. eexists. split; reflexivity.
  - intros N.
    destruct (_normalize_date zero_pad date) as [nd|]; [|reflexivity].
    destruct (lookup e L) as [r|]; [|reflexivity].
    destruct (contains nd (history r)) eqn:C; [|reflexivity].
    exfalso. apply (N nd r eq_refl eq_refl). apply contains_In. exact C.
Qed.

(** X8. [cancel_leave] removes the earliest occurrence of the normalized
    date: the entries before it and after it keep their order, and the
    balance grows by exactly 1. *)
Theorem cancel_removes_earliest (e date nd : string) (r : EmployeeRecord)
    (h1 h2 : list string) (L : Ledger) :
  lookup e L = Some r ->
  _normalize_date zero_pad date = Some nd ->
  history r = (h1 ++ nd :: h2)%list ->
  ~ In nd h1 ->
  cancel_leave zero_pad e date L =
    (update e (mk_record (balance r + 1) (h1 ++ h2)) L,
     Returned (CancelOk e nd (balance r + 1))).
Proof.
  intros E N H I. rewrite cancel_leave_eq, N, E, H.
  replace (contains nd (h1 ++ nd :: h2)) with true
    by (symmetry; apply contains_In, in_or_app; right; left; reflexivity).
  rewrite remove_first_split by exact I. reflexivity.
Qed.

(** X9. Cancelling a recorded date and applying for it again for one day
    gives the balance back and moves the date to the end of the history;
    every date occurs as often as before. *)
Theorem cancel_then_apply (e date nd : string) (reason : option string)
    (r : EmployeeRecord) (L : Ledger) :
  lookup e L = Some r ->
  _normalize_date zero_pad date = Some nd ->
  In nd (history r) ->
  0 <= balance r ->
  fst (apply_leave zero_pad e date 1 reason (fst (cancel_leave zero_pad e date L)))
    = update e (mk_record (balance r) (remove_first nd (history r) ++ [nd])) L /\
  forall x, count x (remove_first nd (history r) ++ [nd]) = count x (history r).
Proof.
  intros E N I B.
  destruct (normalize_date_inv _ _ _ N) as ([y m d] & _ & Hnd & V).
  cbn [year month day] in V.
  rewrite cancel_leave_eq, N, E.
  pose proof I as C. apply contains_In in C. rewrite C. cbn [fst].
  rewrite apply_leave_eq, N. cbn [Z.leb Z.compare].
  rewrite (lookup_update_same _ _ _ _ E). cbn [balance history].
  replace (1 >? balance r + 1) with false by lia. cbn [fst].
  rewrite update_update. rewrite Hnd at 2. rewrite applied_one by exact V.
  rewrite <- Hnd. split.
  - f_equal. f_equal. lia.
  - intros x. pose proof (count_remove_first x nd _ C). rewrite count_app. lia.
Qed.

(** X10. After a successful [apply_leave], [leave_history] with the number
    of applied dates as limit returns exactly those dates, latest first, and
    [check_balance] reports the new balance of the response and a history
    count grown by the number of applied dates. *)
Theorem reads_after_apply (e date : string) (days : Z) (reason : option string)
    (r : EmployeeRecord) (nd : string) (L : Ledger) :
  lookup e L = Some r ->
  _normalize_date zero_pad date = Some nd ->
  1 <= days <= balance r ->
  exists dates L',
    apply_leave zero_pad e date days reason L =
      (L', Returned (ApplyOk e dates days (balance r - days) reason)) /\
    leave_history e (len dates) L' =
      (L', Returned (HistoryOk e (rev dates) (len dates))) /\
    check_balance e L' =
      (L', Returned (BalanceOk e (balance r - days) (len (history r) + len dates))).
Proof.
  intros E N D. rewrite apply_leave_eq, N, E.
  replace (days <=? 0) with false by lia.
  replace (days >? balance r) with false by lia.
  eexists _, _. split; [reflexivity|].
  rewrite leave_history_eq, check_balance_eq.
  rewrite (lookup_update_same _ _ _ _ E). cbn [balance history]. split.
  - rewrite slice_to_rev_app. reflexivity.
  - unfold len. rewrite length_app, Nat2Z.inj_add. reflexivity.
Qed.

(** X11. [apply_leave] returns either exactly [days] dates or the
    normalized start date alone, and in both cases the normalized start date
    comes first. *)
Theorem applied_dates_shape (e date : string) (days : Z)
    (reason : option string) (r : EmployeeRecord) (nd : string) (L : Ledger) :
  lookup e L = Some r ->
  _normalize_date zero_pad date = Some nd ->
  1 <= days <= balance r ->
  exists rest,
    snd (apply_leave zero_pad e date days reason L) =
      Returned (ApplyOk e (nd :: rest) days (balance r - days) reason) /\
    (len (nd :: rest) = days \/ rest = []).
Proof.
  intros E N D. rewrite apply_leave_eq, N, E.
  replace (days <=? 0) with false by lia.
  replace (days >? balance r) with false by lia. cbn [snd].
  destruct (normalize_date_inv _ _ _ N) as ([y m d] & _ & Hnd & V).
  cbn [year month day] in V.
  destruct (applied_head zero_pad y m d days V ltac:(lia)) as [t Ht].
  rewrite <- Hnd in Ht. exists t. rewrite Ht. split; [reflexivity|].
  unfold applied in Ht.
  destruct (expand_dates zero_pad nd days) as [ds|] eqn:X.
  - left. subst ds. unfold expand_dates in X.
    destruct (strptime nd); [|discriminate].
    apply for_each_returned in X. destruct X as [X _].
    unfold len. rewrite X. unfold range. rewrite length_map, length_seq. lia.
  - right. congruence.
Qed.

(** X12. An adjustment by [delta] followed by one by [- delta] gives the
    ledger back when neither is clamped; when the first one is clamped, the
    balance ends at [- delta] instead. *)
Theorem adjust_then_undo (a1 a2 e : string) (delta : Z) (n1 n2 : option string)
    (r : EmployeeRecord) (L : Ledger) :
  lookup e L = Some r ->
  0 <= balance r ->
  (0 <= balance r + delta ->
   fst (admin_adjust_balance a2 e (- delta) n2
          (fst (admin_adjust_balance a1 e delta n1 L))) = L) /\
  (balance r + delta < 0 ->
   lookup e (fst (admin_adjust_balance a2 e (- delta) n2
                    (fst (admin_adjust_balance a1 e delta n1 L))))
     = Some (mk_record (- delta) (history r))).
Proof.
  intros E B.
  rewrite (admin_adjust_balance_eq a1 e delta n1 L), E. cbn [fst].
  rewrite admin_adjust_balance_eq, (lookup_update_same _ _ _ _ E).
  cbn [fst balance history]. rewrite update_update. split; intros H.
  - replace (Z.max 0 (Z.max 0 (balance r + delta) + - delta)) with (balance r) by lia.
    rewrite record_eta. apply update_same. exact E.
  - replace (Z.max 0 (Z.max 0 (balance r + delta) + - delta)) with (- delta) by lia.
    apply (lookup_update_same _ _ _ _ E).
Qed.

End Composition.

(** ** Calls on different employees, and what sequences of calls keep *)

Section Sequences.

Variable zero_pad : bool.

(** A call on [e] looks at the record of [e] only, and writes that record
    only. *)
Lemma call_local op e :
  addressed op = Some e ->
  exists F : option EmployeeRecord -> option EmployeeRecord * Response,
    forall L,
      call zero_pad op L =
      (match fst (F (lookup e L)) with
       | Some r' => update e r' L
       | None => L
       end,
       Returned (snd (F (lookup e L)))).
Proof.
  destruct op as [e0 | e0 d n rs | e0 d | e0 l | a e0 dl nt | ];
    cbn [addressed call]; intros [= <-].
  - exists (fun o => (None, match o with
                            | Some r => BalanceOk e0 (balance r) (len (history r))
                            | None => Failure (NotFound e0)
                            end)).
    intros L. rewrite check_balance_eq. destruct (lookup e0 L); reflexivity.
  - exists (fun o =>
              match _normalize_date zero_pad d with
              | None => (None, Failure InvalidDate)
              | Some nd =>
                  if n <=? 0 then (None, Failure InvalidQuantity)
                  else match o with
                       | None => (None, Failure (NotFound e0))
                       | Some r =>
                           if n >? balance r
                           then (None, Failure (InsufficientBalance n (balance r)))
                           else (Some (mk_record (balance r - n)
                                         (history r ++ applied zero_pad nd n)),
                                 ApplyOk e0 (applied zero_pad nd n) n (balance r - n) rs)
                       end
              end).
    intros L. rewrite apply_leave_eq.
    destruct (_normalize_date zero_pad d); [|reflexivity].
    destruct (n <=? 0); [reflexivity|].
    destruct (lookup e0 L) as [r|]; [|reflexivity].
    destruct (n >? balance r); reflexivity.
  - exists (fun o =>
              match _normalize_date zero_pad d with
              | None => (None, Failure InvalidDate)
              | Some nd =>
                  match o with
                  | None => (None, Failure (NotFound e0))
                  | Some r =>
                      if contains nd (history r)
                      then (Some (mk_record (balance r + 1)
                                    (remove_first nd (history r))),
                            CancelOk e0 nd (balance r + 1))
                      else (None, Failure (NoSuchLeaveEntry nd e0))
                  end
              end).
    intros L. rewrite cancel_leave_eq.
    destruct (_normalize_date zero_pad d) as [nd|]; [|reflexivity].
    destruct (lookup e0 L) as [r|]; [|reflexivity].
    destruct (contains nd (history r)); reflexivity.
  - exists (fun o => (None, match o with
                            | Some r => HistoryOk e0 (slice_to (rev (history r)) l) l
                            | None => Failure (NotFound e0)
                            end)).
    intros L. rewrite leave_history_eq. destruct (lookup e0 L); reflexivity.
  - exists (fun o =>
              match o with
              | None => (None, Failure (NotFound e0))
              | Some r => (Some (mk_record (Z.max 0 (balance r + dl)) (history r)),
                           AdjustOk e0 (Z.max 0 (balance r + dl)) a dl nt)
              end).
    intros L. rewrite admin_adjust_balance_eq.
    destruct (lookup e0 L); reflexivity.
Qed.

(** X13. Two calls that address different employees can be made in either
    order: each gets the response it gets when made alone, and the ledger
    after both is the same. *)
Theorem calls_on_different_employees_commute (op1 op2 : Op) (e1 e2 : string)
    (L : Ledger) :
  addressed op1 = Some e1 ->
  addressed op2 = Some e2 ->
  e1 <> e2 ->
  fst (call zero_pad op2 (fst (call zero_pad op1 L))) =
  fst (call zero_pad op1 (fst (call zero_pad op2 L))) /\
  snd (call zero_pad op2 (fst (call zero_pad op1 L))) = snd (call zero_pad op2 L) /\
  snd (call zero_pad op1 (fst (call zero_pad op2 L))) = snd (call zero_pad op1 L).
Proof.
  intros A1 A2 N.
  destruct (call_local op1 e1 A1) as [F1 H1].
  destruct (call_local op2 e2 A2) as [F2 H2].
  assert (K1 : lookup e2 (fst (call zero_pad op1 L)) = lookup e2 L).
  { rewrite H1. cbn [fst]. destruct (fst (F1 (lookup e1 L))); [|reflexivity].
    apply lookup_update_other. congruence. }
  assert (K2 : lookup e1 (fst (call zero_pad op2 L)) = lookup e1 L).
  { rewrite H2. cbn [fst]. destruct (fst (F2 (lookup e2 L))); [|reflexivity].
    apply lookup_update_other. congruence. }
  rewrite (H2 (fst (call zero_pad op1 L))), (H1 (fst (call zero_pad op2 L))).
  rewrite K1, K2. cbn [fst snd].
  rewrite (H1 L), (H2 L). cbn [fst snd].
  repeat split.
  destruct (fst (F1 (lookup e1 L))), (fst (F2 (lookup e2 L))); try reflexivity.
  apply update_comm. congruence.
Qed.

Lemma call_keeps_keys op L : keys (fst (call zero_pad op L)) = keys L.
Proof.
  destruct (addressed op) as [e|] eqn:A.
  - destruct (call_local op e A) as [F H]. rewrite H. cbn [fst].
    destruct (fst (F (lookup e L))); [apply keys_update | reflexivity].
  - destruct op; try discriminate. reflexivity.
Qed.

Lemma run_keeps_keys ops L : keys (run zero_pad ops L) = keys L.
Proof.
  revert L. induction ops as [|op ops IH]; intros L; [reflexivity|].
  cbn [run]. rewrite IH. apply call_keeps_keys.
Qed.

(** X14. After any sequence of calls, [list_employees] lists the
    identifiers the ledger started with, in the same order. *)
Theorem directory_ids_after_calls (ops : list Op) (L : Ledger) :
  exists es,
    list_employees (run zero_pad ops L)
      = (run zero_pad ops L, Returned (EmployeesOk es)) /\
    listed_ids es = keys L.
Proof.
  eexists. split; [reflexivity|].
  unfold listed_ids. rewrite map_map. cbn [fst].
  exact (run_keeps_keys ops L).
Qed.

(** X15. In a ledger without repeated keys, [list_employees] lists an
    identifier with a balance and a history count exactly when
    [check_balance] reports that balance and that count for it. *)
Theorem directory_agrees_with_check_balance (L : Ledger)
    (es : list (string * Z * Z)) (e : string) (b n : Z) :
  NoDup (keys L) ->
  snd (list_employees L) = Returned (EmployeesOk es) ->
  (In (e, b, n) es <-> check_balance e L = (L, Returned (BalanceOk e b n))).
Proof.
  intros ND H. cbn in H. injection H as <-.
  rewrite check_balance_eq, in_map_iff. split.
  - intros ([k r] & E & I). cbn [fst snd] in E. injection E as -> <- <-.
    rewrite (In_lookup _ _ _ ND I). reflexivity.
  - destruct (lookup e L) as [r|] eqn:E; [|discriminate].
    intros [= <- <-]. exists (e, r). split; [reflexivity|].
    apply lookup_In. exact E.
Qed.

Lemma lookup_update_cases e e' r r' r0 L :
  lookup e L = Some r -> lookup e' L = Some r0 ->
  lookup e (update e' r' L) = Some (if String.eqb e e' then r' else r).
Proof.
  intros H H'. destruct (String.eqb e e') eqn:E.
  - apply String.eqb_eq in E. subst e'. exact (lookup_update_same _ _ _ _ H).
  - rewrite lookup_update_other; [exact H|].
    intros ->. rewrite String.eqb_refl in E. discriminate.
Qed.

Lemma expand_dates_length nd n ds :
  0 < n -> expand_dates zero_pad nd n = Returned ds -> len ds = n.
Proof.
  intros P X. unfold expand_dates in X.
  destruct (strptime nd); [|discriminate].
  apply for_each_returned in X. destruct X as [X _].
  unfold len. rewrite X. unfold range. rewrite length_map, length_seq. lia.
Qed.

Lemma call_keeps_leave_days op e r L :
  keeps_leave_days zero_pad op = true ->
  lookup e L = Some r ->
  exists r', lookup e (fst (call zero_pad op L)) = Some r' /\
             balance r' + len (history r') = balance r + len (history r).
Proof.
  intros K E.
  destruct op as [e0 | e0 d n rs | e0 d | e0 l | a e0 dl nt | ];
    cbn [call keeps_leave_days] in *.
  - rewrite check_balance_eq. destruct (lookup e0 L); eauto.
  - rewrite apply_leave_eq.
    destruct (_normalize_date zero_pad d) as [nd|]; [|eauto].
    destruct (n <=? 0) eqn:N; [eauto|].
    destruct (lookup e0 L) as [r0|] eqn:E0; [|eauto].
    destruct (n >? balance r0); [eauto|]. cbn [fst].
    eexists. split; [exact (lookup_update_cases _ _ _ _ _ _ E E0)|].
    destruct (String.eqb e e0) eqn:Q; [|reflexivity].
    apply String.eqb_eq in Q. subst e0. assert (r0 = r) by congruence. subst r0.
    cbn [balance history]. unfold len at 1. rewrite length_app, Nat2Z.inj_add.
    fold (len (history r)). fold (len (applied zero_pad nd n)).
    assert (len (applied zero_pad nd n) = n); [|lia].
    unfold applied. destruct (expand_dates zero_pad nd n) as [ds|] eqn:X.
    + apply (expand_dates_length nd n); [lia | exact X].
    + unfold len. cbn. lia.
  - rewrite cancel_leave_eq.
    destruct (_normalize_date zero_pad d) as [nd|]; [|eauto].
    destruct (lookup e0 L) as [r0|] eqn:E0; [|eauto].
    destruct (contains nd (history r0)) eqn:C; [|eauto]. cbn [fst].
    eexists. split; [exact (lookup_update_cases _ _ _ _ _ _ E E0)|].
    destruct (String.eqb e e0) eqn:Q; [|reflexivity].
    apply String.eqb_eq in Q. subst e0. assert (r0 = r) by congruence. subst r0.
    cbn [balance history].
    assert (len (remove_first nd (history r)) + 1 = len (history r)); [|lia].
    clear - C. unfold len. induction (history r) as [|y h IH]; [discriminate|].
    unfold contains in C. cbn [existsb remove_first] in *.
    destruct (String.eqb nd y); [cbn [List.length]; lia|].
    cbn [orb] in C. specialize (IH C). cbn [List.length]. lia.
  - rewrite leave_history_eq. destruct (lookup e0 L); eauto.
  - discriminate.
  - eauto.
Qed.

(** X16. Over any sequence of calls that holds no administrative adjustment
    and no application of several days whose expansion raises, the balance
    plus the number of history entries of every employee stays what it
    was. *)
Theorem leave_days_conserved (ops : list Op) (e : string) (r : EmployeeRecord)
    (L : Ledger) :
  Forall (fun op => keeps_leave_days zero_pad op = true) ops ->
  lookup e L = Some r ->
  exists r', lookup e (run zero_pad ops L) = Some r' /\
             balance r' + len (history r') = balance r + len (history r).
Proof.
  intros K. revert L r. induction K as [|op ops Hop K IH]; intros L r E.
  - exists r. split; [exact E | reflexivity].
  - cbn [run].
    destruct (call_keeps_leave_days op e r L Hop E) as (r1 & E1 & S1).
    destruct (IH _ _ E1) as (r' & E' & S'). exists r'. split; [exact E' | lia].
Qed.

Lemma applied_normalized nd n :
  normalized_text zero_pad nd ->
  Forall (normalized_text zero_pad) (applied zero_pad nd n).
Proof.
  intros Hnd. unfold applied.
  destruct (expand_dates zero_pad nd n) as [ds|] eqn:X; [|repeat constructor; exact Hnd].
  unfold expand_dates in X. destruct (strptime nd) as [base|] eqn:S; [|discriminate].
  apply Forall_forall. intros y Hy.
  destruct (for_each_members _ _ _ _ X Hy) as (i & _ & Fi).
  destruct (i =? 0).
  - injection Fi as <-. exists base. split; [exact (strptime_valid _ _ S) | reflexivity].
  - unfold replace_day, new_datetime in Fi.
    destruct (valid_date (year base) (month base) (day base + i)) eqn:V; [|discriminate].
    injection Fi as <-. eexists. split; [|reflexivity]. exact V.
Qed.

Lemma remove_first_Forall (P : string -> Prop) x l :
  Forall P l -> Forall P (remove_first x l).
Proof.
  induction 1 as [|y l Hy Hl IH]; cbn; [constructor|].
  destruct (String.eqb x y); [exact Hl | constructor; assumption].
Qed.

Lemma lookup_normalized e r L :
  normalized_histories zero_pad L -> lookup e L = Some r ->
  Forall (normalized_text zero_pad) (history r).
Proof.
  intros HL He. unfold normalized_histories in HL. rewrite Forall_forall in HL.
  exact (HL _ (lookup_In _ _ _ He)).
Qed.

Lemma call_keeps_normalized op L :
  normalized_histories zero_pad L ->
  normalized_histories zero_pad (fst (call zero_pad op L)).
Proof.
  intros HL.
  destruct op as [e0 | e0 d n rs | e0 d | e0 l | a e0 dl nt | ]; cbn [call].
  - rewrite check_balance_eq. destruct (lookup e0 L); exact HL.
  - rewrite apply_leave_eq.
    destruct (_normalize_date zero_pad d) as [nd|] eqn:N; [|exact HL].
    destruct (n <=? 0); [exact HL|].
    destruct (lookup e0 L) as [r|] eqn:E; [|exact HL].
    destruct (n >? balance r); [exact HL|]. cbn [fst].
    apply Forall_update; [exact HL|]. intros k. cbn [snd history].
    apply Forall_app. split; [exact (lookup_normalized _ _ _ HL E)|].
    apply applied_normalized.
    destruct (normalize_date_inv _ _ _ N) as (dt & _ & -> & V).
    exists dt. split; [exact V | reflexivity].
  - rewrite cancel_leave_eq.
    destruct (_normalize_date zero_pad d) as [nd|]; [|exact HL].
    destruct (lookup e0 L) as [r|] eqn:E; [|exact HL].
    destruct (contains nd (history r)); [|exact HL]. cbn [fst].
    apply Forall_update; [exact HL|]. intros k. cbn [snd history].
    apply remove_first_Forall. exact (lookup_normalized _ _ _ HL E).
  - rewrite leave_history_eq. destruct (lookup e0 L); exact HL.
  - rewrite admin_adjust_balance_eq.
    destruct (lookup e0 L) as [r|] eqn:E; [|exact HL]. cbn [fst].
    apply Forall_update; [exact HL|]. intros k. cbn [snd history].
    exact (lookup_normalized _ _ _ HL E).
  - exact HL.
Qed.

(** X17. If every history entry of a ledger is a text that [strftime]
    prints for a valid calendar date, the same holds after any sequence of
    calls: the tools never record anything else. *)
Theorem histories_hold_normalized_dates (ops : list Op) (L : Ledger) :
  normalized_histories zero_pad L ->
  normalized_histories zero_pad (run zero_pad ops L).
Proof.
  revert L. induction ops as [|op ops IH]; intros L HL; [exact HL|].
  cbn [run]. apply IH. apply call_keeps_normalized. exact HL.
Qed.

(** X18. A recorded date whose year is printed with four digits can be
    cancelled by passing the recorded text back to [cancel_leave]. *)
Theorem recorded_date_can_be_cancelled (e : string) (dt : datetime)
    (r : EmployeeRecord) (L : Ledger) :
  lookup e L = Some r ->
  In (strftime zero_pad dt) (history r) ->
  valid_date (year dt) (month dt) (day dt) = true ->
  zero_pad = true \/ 1000 <= year dt ->
  cancel_leave zero_pad e (strftime zero_pad dt) L =
    (update e (mk_record (balance r + 1)
                 (remove_first (strftime zero_pad dt) (history r))) L,
     Returned (CancelOk e (strftime zero_pad dt) (balance r + 1))).
Proof.
  intros E I V P. destruct dt as [y m d]. cbn [year month day] in *.
  rewrite cancel_leave_eq. unfold _normalize_date.
  rewrite strptime_strftime by assumption. rewrite E.
  apply contains_In in I. rewrite I. reflexivity.
Qed.

End Sequences.

(** ** The bounds of [leave_history] *)

(** X19. For a known employee, [leave_history] with a limit of at least the
    length of the history returns the whole history, latest first; with a
    negative limit it returns the history without its [- limit] oldest
    entries, latest first (nothing when the history is no longer than
    that). *)
Theorem leave_history_limits (e : string) (limit : Z) (r : EmployeeRecord)
    (L : Ledger) :
  lookup e L = Some r ->
  (len (history r) <= limit ->
   leave_history e limit L = (L, Returned (HistoryOk e (rev (history r)) limit))) /\
  (limit < 0 ->
   leave_history e limit L =
     (L, Returned (HistoryOk e (rev (skipn (Z.to_nat (- limit)) (history r))) limit))).
Proof.
  intros E. rewrite leave_history_eq, E. unfold slice_to, len. split; intros H.
  - destruct (limit <? 0) eqn:C; [apply Z.ltb_lt in C; lia|].
    rewrite firstn_all2 by (rewrite length_rev; lia). reflexivity.
  - destruct (limit <? 0) eqn:C; [|apply Z.ltb_ge in C; lia].
    rewrite firstn_rev, length_rev. do 4 f_equal.
    destruct (Z_le_gt_dec (- limit) (Z.of_nat (List.length (history r)))).
    + f_equal. lia.
    + rewrite !skipn_all2 by lia. reflexivity.
Qed.

(* ================================================================= *)
(** * More concrete runs on the seeded ledger *)

Lemma normalize_date_idempotent_witness :
  _normalize_date false "2025-3-1" = Some "2025-03-01" /\
  exact_format "2025-03-01" = true /\
  _normalize_date false "2025-03-01" = Some "2025-03-01".
Proof.
  apply (normalize_date_idempotent false "2025-3-1" (mk_datetime 2025 3 1)).
  - reflexivity.
  - right. simpl. lia.
Defined.

Lemma normalize_date_fixes_exact_format_witness :
  _normalize_date false "2024-02-29" = Some "2024-02-29".
Proof.
  apply (normalize_date_fixes_exact_format false "2024-02-29" (mk_datetime 2024 2 29)).
  - reflexivity.
  - reflexivity.
  - right. simpl. lia.
Defined.

Lemma small_year_without_padding_witness :
  _normalize_date false "0999-01-01" = Some "999-01-01" /\
  _normalize_date false "999-01-01" = None /\
  applied false "999-01-01" 3 = ["999-01-01"].
Proof.
  apply (small_year_without_padding "0999-01-01" (mk_datetime 999 1 1) 3).
  - reflexivity.
  - simpl. lia.
Defined.

Lemma cancel_removes_earliest_witness :
  cancel_leave false "E001" "2025-1-1" employee_leaves =
    (update "E001" (mk_record (18 + 1) (["2024-12-25"] ++ [])) employee_leaves,
     Returned (CancelOk "E001" "2025-01-01" (18 + 1))).
Proof.
  apply (cancel_removes_earliest false "E001" "2025-1-1" "2025-01-01"
           (mk_record 18 ["2024-12-25"; "2025-01-01"]) ["2024-12-25"] []
           employee_leaves).
  - reflexivity.
  - reflexivity.
  - reflexivity.
  - simpl. intros [H | H]; [discriminate H | exact H].
Defined.

Lemma cancel_then_apply_witness :
  fst (apply_leave false "E001" "2024-12-25" 1 None
         (fst (cancel_leave false "E001" "2024-12-25" employee_leaves)))
    = update "E001" (mk_record 18 ["2025-01-01"; "2024-12-25"]) employee_leaves.
Proof.
  destruct (cancel_then_apply false "E001" "2024-12-25" "2024-12-25" None
              (mk_record 18 ["2024-12-25"; "2025-01-01"]) employee_leaves)
    as [H _].
  - reflexivity.
  - reflexivity.
  - simpl. left. reflexivity.
  - simpl. lia.
  - exact H.
Defined.

Lemma reads_after_apply_witness :
  exists dates L',
    apply_leave false "E001" "2025-03-01" 2 None employee_leaves =
      (L', Returned (ApplyOk "E001" dates 2 (18 - 2) None)) /\
    leave_history "E001" (len dates) L' =
      (L', Returned (HistoryOk "E001" (rev dates) (len dates))) /\
    check_balance "E001" L' =
      (L', Returned (BalanceOk "E001" (18 - 2) (2 + len dates))).
Proof.
  apply (reads_after_apply false "E001" "2025-03-01" 2 None
           (mk_record 18 ["2024-12-25"; "2025-01-01"]) "2025-03-01"
           employee_leaves).
  - reflexivity.
  - reflexivity.
  - simpl. lia.
Defined.

Lemma applied_dates_shape_witness :
  exists rest,
    snd (apply_leave false "E001" "2025-01-31" 2 None employee_leaves) =
      Returned (ApplyOk "E001" ("2025-01-31" :: rest) 2 (18 - 2) None) /\
    (len ("2025-01-31" :: rest) = 2 \/ rest = []).
Proof.
  apply (applied_dates_shape false "E001" "2025-01-31" 2 None
           (mk_record 18 ["2024-12-25"; "2025-01-01"]) "2025-01-31"
           employee_leaves).
  - reflexivity.
  - reflexivity.
  - simpl. lia.
Defined.

Lemma adjust_then_undo_witness :
  fst (admin_adjust_balance "admin" "E002" (- -5) None
         (fst (admin_adjust_balance "admin" "E002" (-5) None employee_leaves)))
    = employee_leaves /\
  lookup "E002"
    (fst (admin_adjust_balance "admin" "E002" (- -25) None
            (fst (admin_adjust_balance "admin" "E002" (-25) None employee_leaves))))
    = Some (mk_record (- -25) []).
Proof.
  split.
  - apply (adjust_then_undo "admin" "admin" "E002" (-5) None None
             (mk_record 20 []) employee_leaves); [reflexivity | simpl; lia | simpl; lia].
  - apply (adjust_then_undo "admin" "admin" "E002" (-25) None None
             (mk_record 20 []) employee_leaves); [reflexivity | simpl; lia | simpl; lia].
Defined.

Lemma calls_on_different_employees_commute_witness :
  fst (call false (AdminAdjustBalance "admin" "E002" (-25) None)
         (fst (call false (ApplyLeave "E001" "2025-03-01" 2 None) employee_leaves))) =
  fst (call false (ApplyLeave "E001" "2025-03-01" 2 None)
         (fst (call false (AdminAdjustBalance "admin" "E002" (-25) None) employee_leaves))) /\
  snd (call false (AdminAdjustBalance "admin" "E002" (-25) None)
         (fst (call false (ApplyLeave "E001" "2025-03-01" 2 None) employee_leaves))) =
  snd (call false (AdminAdjustBalance "admin" "E002" (-25) None) employee_leaves) /\
  snd (call false (ApplyLeave "E001" "2025-03-01" 2 None)
         (fst (call false (AdminAdjustBalance "admin" "E002" (-25) None) employee_leaves))) =
  snd (call false (ApplyLeave "E001" "2025-03-01" 2 None) employee_leaves).
Proof.
  apply (calls_on_different_employees_commute false
           (ApplyLeave "E001" "2025-03-01" 2 None)
           (AdminAdjustBalance "admin" "E002" (-25) None) "E001" "E002"
           employee_leaves).
  - reflexivity.
  - reflexivity.
  - discriminate.
Defined.

Lemma directory_agrees_with_check_balance_witness :
  In ("E002", 20, 0) [("E001", 18, 2); ("E002", 20, 0); ("Prakash", 20, 0)] <->
  check_balance "E002" employee_leaves =
    (employee_leaves, Returned (BalanceOk "E002" 20 0)).
Proof.
  apply (directory_agrees_with_check_balance employee_leaves
           [("E001", 18, 2); ("E002", 20, 0); ("Prakash", 20, 0)] "E002" 20 0).
  - repeat constructor; simpl; intuition discriminate.
  - reflexivity.
Defined.

Lemma leave_days_conserved_witness :
  exists r',
    lookup "E001"
      (run false [ApplyLeave "E001" "2025-03-01" 2 None;
                  CancelLeave "E001" "2024-12-25";
                  CheckBalance "E001"] employee_leaves) = Some r' /\
    balance r' + len (history r') = 18 + 2.
Proof.
  apply (leave_days_conserved false
           [ApplyLeave "E001" "2025-03-01" 2 None;
            CancelLeave "E001" "2024-12-25";
            CheckBalance "E001"]
           "E001" (mk_record 18 ["2024-12-25"; "2025-01-01"]) employee_leaves).
  - repeat (constructor; [reflexivity|]). constructor.
  - reflexivity.
Defined.

Lemma seed_histories_normalized : normalized_histories false employee_leaves.
Proof.
  unfold normalized_histories, employee_leaves.
  constructor; [cbn [snd history] | repeat constructor].
  constructor; [exists (mk_datetime 2024 12 25); split; reflexivity|].
  constructor; [exists (mk_datetime 2025 1 1); split; reflexivity|].
  constructor.
Defined.

Lemma histories_hold_normalized_dates_witness :
  normalized_histories false
    (run false [ApplyLeave "E001" "2025-1-30" 3 None;
                CancelLeave "E001" "2025-1-1"] employee_leaves).
Proof.
  apply (histories_hold_normalized_dates false
           [ApplyLeave "E001" "2025-1-30" 3 None; CancelLeave "E001" "2025-1-1"]
           employee_leaves).
  exact seed_histories_normalized.
Defined.

Lemma recorded_date_can_be_cancelled_witness :
  cancel_leave false "E001" "2025-01-01" employee_leaves =
    (update "E001" (mk_record (18 + 1) ["2024-12-25"]) employee_leaves,
     Returned (CancelOk "E001" "2025-01-01" (18 + 1))).
Proof.
  apply (recorded_date_can_be_cancelled false "E001" (mk_datetime 2025 1 1)
           (mk_record 18 ["2024-12-25"; "2025-01-01"]) employee_leaves).
  - reflexivity.
  - simpl. right. left. reflexivity.
  - reflexivity.
  - right. simpl. lia.
Defined.

Lemma leave_history_limits_witness :
  leave_history "E001" 20 employee_leaves =
    (employee_leaves, Returned (HistoryOk "E001" ["2025-01-01"; "2024-12-25"] 20)) /\
  leave_history "E001" (-1) employee_leaves =
    (employee_leaves, Returned (HistoryOk "E001" ["2025-01-01"] (-1))).
Proof.
  destruct (leave_history_limits "E001" 20
              (mk_record 18 ["2024-12-25"; "2025-01-01"]) employee_leaves eq_refl)
    as [H1 _].
  destruct (leave_history_limits "E001" (-1)
              (mk_record 18 ["2024-12-25"; "2025-01-01"]) employee_leaves eq_refl)
    as [_ H2].
  split; [apply H1; vm_compute; discriminate | apply H2; reflexivity].
Defined.
